(** * Solar power-flow simulation engine and battery energy integrator

    A shallow embedding of the power-flow engine of the Odisha solar
    planner ([calculateSystemState] with its helper [calcWire]) and of the
    host loop of [App] that integrates the battery energy.

    Numbers.  The TypeScript [number]s are modelled as exact rationals
    ([Q], compared with [==]): decimal literals denote their exact decimal
    value and [/] is rational division.  Rounding, infinities and NaN of
    IEEE doubles are outside the model.  In particular [x / 0] is [0] in
    [Q] where the source yields an infinity or NaN: the model follows the
    source on every input whose divisors (panel voltage, wire gauge,
    C-rating, inverter efficiency, capacity * voltage) are non-zero, which
    the configuration invariant [validConfig] guarantees. *)

From Stdlib Require Import QArith Qminmax Qround Lqa Lia Bool List String.
Import ListNotations.

Local Open Scope Q_scope.

(** ** Comparisons of the source language *)

Definition Qleb (x y : Q) : bool := Qle_bool x y.
Definition Qltb (x y : Q) : bool := negb (Qle_bool y x).
Definition Qgeb (x y : Q) : bool := Qleb y x.
Definition Qgtb (x y : Q) : bool := Qltb y x.

Infix "<=?" := Qleb (at level 70, no associativity) : Q_scope.
Infix "<?" := Qltb (at level 70, no associativity) : Q_scope.
Infix ">=?" := Qgeb (at level 70, no associativity) : Q_scope.
Infix ">?" := Qgtb (at level 70, no associativity) : Q_scope.

(** ** Shared data model (identical in both copies of SimulationEngine.ts)

    Every record lives in a module of its own so that its fields keep the
    names of the TypeScript interface. *)

Module Config.
Record SystemConfig : Set := mk {
  numPanels : Q;
  panelWattage : Q;
  panelVoltage : Q;
  wireGaugeMm2 : Q;
  wireLengthFt : Q;
  batteryCapacityAh : Q;
  batteryVoltage : Q;
  batteryCRating : Q;
  inverterEfficiency : Q;
  controllerEfficiency : Q
}.
End Config.

Definition DEFAULT_CONFIG : Config.SystemConfig := {|
  Config.numPanels := 2;
  Config.panelWattage := 250;
  Config.panelVoltage := 25;
  Config.wireGaugeMm2 := 10;
  Config.wireLengthFt := 20;
  Config.batteryCapacityAh := 300;
  Config.batteryVoltage := 24;
  Config.batteryCRating := 20;
  Config.inverterEfficiency := 0.8;
  Config.controllerEfficiency := 0.9
|}.

Module Analysis.
Record WireAnalysis : Set := mk {
  current : Q;
  resistance : Q;
  powerLoss : Q;
  voltageDrop : Q;
  voltageDropPercent : Q;
  isSafe : bool;
  recommendedMm2 : Q;
  message : string
}.
End Analysis.

Module Wire.
Record WireSegmentStats : Set := mk {
  current : Q;
  powerLoss : Q;
  voltageDrop : Q;
  isSafe : bool
}.

Record WireStats : Set := mkStats {
  solarToController : WireSegmentStats;
  controllerToBattery : WireSegmentStats;
  batteryToInverter : WireSegmentStats;
  inverterToLoad : WireSegmentStats
}.
End Wire.

Inductive SystemMode : Set := OFF_GRID | ON_GRID | HYBRID.

(** The wire helper, textually the same closure in both copies. *)
Definition resistance (lengthFt gauge : Q) : Q :=
  let lengthM := lengthFt * 0.3048 in
  (0.0172 * lengthM * 2) / gauge.

Definition calcWire (power voltage lengthFt gauge : Q)
    : Wire.WireSegmentStats :=
  if (power <=? 0) || (voltage <=? 0) then
    {| Wire.current := 0; Wire.powerLoss := 0;
       Wire.voltageDrop := 0; Wire.isSafe := true |}
  else
    let current := power / voltage in
    let resistance := resistance lengthFt gauge in
    let powerLoss := current ^ 2 * resistance in
    let voltageDrop := current * resistance in
    let isSafe := current <=? gauge * 5 in
    {| Wire.current := current; Wire.powerLoss := powerLoss;
       Wire.voltageDrop := voltageDrop; Wire.isSafe := isSafe |}.

(** The quantities both copies of [calculateSystemState] bind with the same
    expressions before their mode logic: sun window, generation, solar leg,
    charge limits, battery state and inverter demand. *)
Module Common.
Section Inputs.
Variables (sunIntensity acLoad currentBatteryLevel : Q).
Variable config : Config.SystemConfig.
Variable timeOfDay : Q.

Definition effectiveIntensity : Q :=
  if (timeOfDay <? 9) || (timeOfDay >? 16) then 0 else sunIntensity.

Definition solarInput : Q :=
  Config.numPanels config * Config.panelWattage config * effectiveIntensity.

Definition solarStats : Wire.WireSegmentStats :=
  calcWire solarInput (Config.panelVoltage config)
           (Config.wireLengthFt config) (Config.wireGaugeMm2 config).

Definition powerAtController : Q :=
  Qmax 0 (solarInput - Wire.powerLoss solarStats).

Definition maxChargeCurrent : Q :=
  Config.batteryCapacityAh config / Config.batteryCRating config.

Definition maxChargePower : Q :=
  maxChargeCurrent * Config.batteryVoltage config.

Definition powerAvailableForCharging : Q :=
  powerAtController * Config.controllerEfficiency config.

Definition maxWh : Q :=
  Config.batteryCapacityAh config * Config.batteryVoltage config.

Definition batteryPercent : Q := (currentBatteryLevel / maxWh) * 100.

Definition isBatteryFull : bool := batteryPercent >=? 100.

Definition inverterInput : Q := acLoad / Config.inverterEfficiency config.

Definition invToLoadStats : Wire.WireSegmentStats := calcWire acLoad 230 20 2.5.

Definition wireAnalysis : Analysis.WireAnalysis := {|
  Analysis.current := Wire.current solarStats;
  Analysis.resistance := 0;
  Analysis.powerLoss := Wire.powerLoss solarStats;
  Analysis.voltageDrop := Wire.voltageDrop solarStats;
  Analysis.voltageDropPercent :=
    (Wire.voltageDrop solarStats / Config.panelVoltage config) * 100;
  Analysis.isSafe := Wire.isSafe solarStats;
  Analysis.recommendedMm2 := 0;
  Analysis.message :=
    if Wire.isSafe solarStats then "OK" else "WARNING: Wire overheating!"
|}.
End Inputs.
End Common.

(** ** The earlier copy:
    src/projects/solar_odisha/web_ui/src/SimulationEngine.ts *)

Module Legacy.
Record SystemState : Set := mk {
  sunIntensity : Q;
  generation : Q;
  panelVoltage : Q;
  wireAnalysis : Analysis.WireAnalysis;
  wireStats : Wire.WireStats;
  powerAtController : Q;
  powerToBattery : Q;
  batteryLevel : Q;
  batteryPercent : Q;
  acLoad : Q;
  inverterInput : Q;
  netBatteryFlow : Q;
  gridActive : bool;
  gridExport : Q;
  gridImport : Q;
  wastedPower : Q
}.

Section Evaluate.
Variables (sunIntensity acLoad currentBatteryLevel : Q).
Variable config : Config.SystemConfig.
Variable timeOfDay : Q.
Variable systemMode : SystemMode.

(** Step 3: [(powerToBattery, wastedPower)]. *)
Definition charging : Q * Q :=
  let powerAvailableForCharging :=
    Common.powerAvailableForCharging sunIntensity config timeOfDay in
  let maxChargePower := Common.maxChargePower config in
  match systemMode with
  | ON_GRID => (0, 0)
  | _ =>
      if powerAvailableForCharging >? maxChargePower then
        (maxChargePower, powerAvailableForCharging - maxChargePower)
      else (powerAvailableForCharging, 0)
  end.

(** Step 5: [(inverterDrawFromBattery, gridActive, gridExport, gridImport)]. *)
Definition routing : Q * bool * Q * Q :=
  let inverterInput := Common.inverterInput acLoad config in
  match systemMode with
  | OFF_GRID => (inverterInput, false, 0, 0)
  | ON_GRID =>
      let solarPowerAC :=
        Common.solarInput sunIntensity config timeOfDay
        * Config.inverterEfficiency config in
      if solarPowerAC >=? acLoad then (0, true, solarPowerAC - acLoad, 0)
      else (0, true, 0, acLoad - solarPowerAC)
  | HYBRID =>
      let gridActive :=
        if Common.batteryPercent currentBatteryLevel config <? 70
        then true else false in
      if gridActive then (0, gridActive, 0, acLoad)
      else (inverterInput, gridActive, 0, 0)
  end.

Definition calculateSystemState : SystemState :=
  let solarStats := Common.solarStats sunIntensity config timeOfDay in
  let '(powerToBattery, wastedPower) := charging in
  let controllerToBattStats :=
    calcWire powerToBattery (Config.batteryVoltage config) 5
             (Config.wireGaugeMm2 config) in
  let isBatteryFull := Common.isBatteryFull currentBatteryLevel config in
  let '(inverterDrawFromBattery, gridActive, gridExport, gridImport) :=
    routing in
  let battToInvStats :=
    calcWire inverterDrawFromBattery (Config.batteryVoltage config) 5
             (Config.wireGaugeMm2 config) in
  let netBatteryFlow :=
    match systemMode with
    | ON_GRID => 0
    | _ =>
        let actualCharge := if isBatteryFull then 0 else powerToBattery in
        actualCharge - inverterDrawFromBattery
    end in
  {| Legacy.sunIntensity := Common.effectiveIntensity sunIntensity timeOfDay;
     Legacy.generation := Common.solarInput sunIntensity config timeOfDay;
     Legacy.panelVoltage := Config.panelVoltage config;
     Legacy.wireAnalysis := Common.wireAnalysis sunIntensity config timeOfDay;
     wireStats :=
       {| Wire.solarToController := solarStats;
          Wire.controllerToBattery := controllerToBattStats;
          Wire.batteryToInverter := battToInvStats;
          Wire.inverterToLoad := Common.invToLoadStats acLoad |};
     Legacy.powerAtController :=
       Common.powerAtController sunIntensity config timeOfDay;
     Legacy.powerToBattery := powerToBattery;
     Legacy.batteryLevel := currentBatteryLevel;
     Legacy.batteryPercent := Common.batteryPercent currentBatteryLevel config;
     Legacy.acLoad := acLoad;
     Legacy.inverterInput := Common.inverterInput acLoad config;
     Legacy.netBatteryFlow := netBatteryFlow;
     Legacy.gridActive := gridActive;
     Legacy.gridExport := gridExport;
     Legacy.gridImport := gridImport;
     Legacy.wastedPower := wastedPower |}.
End Evaluate.
End Legacy.

(** ** The current copy: the SimulationEngine.ts that reports
    [battToInvPower] (among the unnamed sources)

    The function assigns to a handful of [let] variables as it goes.  They
    are gathered in one record that is threaded through the stages of the
    function in source order. *)

Module Vars.
Record t : Set := mk {
  inverterDrawFromBattery : Q;
  gridActive : bool;
  gridExport : Q;
  gridImport : Q;
  gridChargingPower : Q;
  powerToBattery : Q;
  wastedPower : Q;
  netBatteryFlow : Q;
  effectiveControllerOutput : Q
}.

(** The initialisers of the [let] declarations. *)
Definition init : t := mk 0 false 0 0 0 0 0 0 0.

Definition set_inverterDrawFromBattery (x : Q) (v : t) : t :=
  mk x (gridActive v) (gridExport v) (gridImport v) (gridChargingPower v)
     (powerToBattery v) (wastedPower v) (netBatteryFlow v)
     (effectiveControllerOutput v).
Definition set_gridActive (b : bool) (v : t) : t :=
  mk (inverterDrawFromBattery v) b (gridExport v) (gridImport v)
     (gridChargingPower v) (powerToBattery v) (wastedPower v)
     (netBatteryFlow v) (effectiveControllerOutput v).
Definition set_gridExport (x : Q) (v : t) : t :=
  mk (inverterDrawFromBattery v) (gridActive v) x (gridImport v)
     (gridChargingPower v) (powerToBattery v) (wastedPower v)
     (netBatteryFlow v) (effectiveControllerOutput v).
Definition set_gridImport (x : Q) (v : t) : t :=
  mk (inverterDrawFromBattery v) (gridActive v) (gridExport v) x
     (gridChargingPower v) (powerToBattery v) (wastedPower v)
     (netBatteryFlow v) (effectiveControllerOutput v).
Definition set_gridChargingPower (x : Q) (v : t) : t :=
  mk (inverterDrawFromBattery v) (gridActive v) (gridExport v) (gridImport v)
     x (powerToBattery v) (wastedPower v) (netBatteryFlow v)
     (effectiveControllerOutput v).
Definition set_powerToBattery (x : Q) (v : t) : t :=
  mk (inverterDrawFromBattery v) (gridActive v) (gridExport v) (gridImport v)
     (gridChargingPower v) x (wastedPower v) (netBatteryFlow v)
     (effectiveControllerOutput v).
Definition set_wastedPower (x : Q) (v : t) : t :=
  mk (inverterDrawFromBattery v) (gridActive v) (gridExport v) (gridImport v)
     (gridChargingPower v) (powerToBattery v) x (netBatteryFlow v)
     (effectiveControllerOutput v).
Definition set_netBatteryFlow (x : Q) (v : t) : t :=
  mk (inverterDrawFromBattery v) (gridActive v) (gridExport v) (gridImport v)
     (gridChargingPower v) (powerToBattery v) (wastedPower v) x
     (effectiveControllerOutput v).
Definition set_effectiveControllerOutput (x : Q) (v : t) : t :=
  mk (inverterDrawFromBattery v) (gridActive v) (gridExport v) (gridImport v)
     (gridChargingPower v) (powerToBattery v) (wastedPower v)
     (netBatteryFlow v) x.
End Vars.

Module Engine.
Record SystemState : Set := mk {
  sunIntensity : Q;
  generation : Q;
  panelVoltage : Q;
  wireAnalysis : Analysis.WireAnalysis;
  wireStats : Wire.WireStats;
  powerAtController : Q;
  powerToBattery : Q;
  batteryLevel : Q;
  batteryPercent : Q;
  acLoad : Q;
  inverterInput : Q;
  netBatteryFlow : Q;
  gridActive : bool;
  gridExport : Q;
  gridImport : Q;
  wastedPower : Q;
  battToInvPower : Q
}.

Section Evaluate.
Variables (sunIntensity acLoad currentBatteryLevel : Q).
Variable config : Config.SystemConfig.
Variable timeOfDay : Q.
Variable systemMode : SystemMode.

Definition GRID_THRESHOLD : Q := 30.
Definition GRID_CHARGE_THRESHOLD : Q := 20.

(** Step 5, "Inverter & Load (Determine Demand FIRST)". *)
Definition demand (v : Vars.t) : Vars.t :=
  let inverterInput := Common.inverterInput acLoad config in
  match systemMode with
  | OFF_GRID =>
      let v := Vars.set_gridActive false v in
      Vars.set_inverterDrawFromBattery inverterInput v
  | ON_GRID =>
      let v := Vars.set_gridActive true v in
      let solarPowerAC :=
        Common.solarInput sunIntensity config timeOfDay
        * Config.inverterEfficiency config in
      let v :=
        if solarPowerAC >=? acLoad then
          let v := Vars.set_gridExport (solarPowerAC - acLoad) v in
          Vars.set_gridImport 0 v
        else
          let v := Vars.set_gridExport 0 v in
          Vars.set_gridImport (acLoad - solarPowerAC) v in
      Vars.set_inverterDrawFromBattery 0 v
  | HYBRID =>
      let batteryPercent := Common.batteryPercent currentBatteryLevel config in
      let isLowSolar :=
        Common.effectiveIntensity sunIntensity timeOfDay <? 0.1 in
      let solarAvailableForLoad :=
        Common.powerAtController sunIntensity config timeOfDay
        * Config.controllerEfficiency config in
      let batteryCanSupport := batteryPercent >? GRID_THRESHOLD in
      if solarAvailableForLoad >=? inverterInput then
        let v := Vars.set_gridActive true v in
        Vars.set_inverterDrawFromBattery inverterInput v
      else if batteryCanSupport then
        let v := Vars.set_gridActive true v in
        Vars.set_inverterDrawFromBattery inverterInput v
      else
        let v := Vars.set_gridActive true v in
        let v := Vars.set_gridImport acLoad v in
        let v := Vars.set_inverterDrawFromBattery 0 v in
        if (batteryPercent <? GRID_CHARGE_THRESHOLD) && isLowSolar then
          let chargeNeeded := Common.maxChargePower config in
          let v :=
            Vars.set_gridChargingPower
              (chargeNeeded / Config.inverterEfficiency config) v in
          Vars.set_gridImport
            (Vars.gridImport v + Vars.gridChargingPower v) v
        else v
  end.

(** Step 6, "Controller Output (Solar -> DC Bus)". *)
Definition controllerOutput (v : Vars.t) : Vars.t :=
  let powerAvailableForCharging :=
    Common.powerAvailableForCharging sunIntensity config timeOfDay in
  let totalDemand :=
    Common.maxChargePower config + Vars.inverterDrawFromBattery v in
  let totalDemand :=
    match systemMode with ON_GRID => 0 | _ => totalDemand end in
  match systemMode with
  | ON_GRID => Vars.set_powerToBattery 0 v
  | _ =>
      if powerAvailableForCharging >? totalDemand then
        match systemMode with
        | HYBRID =>
            let excessDC := powerAvailableForCharging - totalDemand in
            let v := Vars.set_powerToBattery powerAvailableForCharging v in
            let v := Vars.set_wastedPower 0 v in
            let v :=
              Vars.set_inverterDrawFromBattery
                (Vars.inverterDrawFromBattery v + excessDC) v in
            let v :=
              Vars.set_gridExport
                (excessDC * Config.inverterEfficiency config) v in
            Vars.set_gridActive true v
        | _ =>
            let v := Vars.set_powerToBattery totalDemand v in
            Vars.set_wastedPower (powerAvailableForCharging - totalDemand) v
        end
      else
        let v := Vars.set_powerToBattery powerAvailableForCharging v in
        Vars.set_wastedPower 0 v
  end.

(** Step 7, "Net Battery Flow": the flow as first computed ... *)
Definition rawNetFlow (v : Vars.t) : Vars.t :=
  let v := Vars.set_netBatteryFlow 0 v in
  let v := Vars.set_effectiveControllerOutput (Vars.powerToBattery v) v in
  match systemMode with
  | ON_GRID => Vars.set_netBatteryFlow 0 v
  | _ =>
      let gridChargeDC :=
        Vars.gridChargingPower v * Config.inverterEfficiency config in
      Vars.set_netBatteryFlow
        ((Vars.effectiveControllerOutput v + gridChargeDC)
         - Vars.inverterDrawFromBattery v) v
  end.

(** ... and the full-battery clamp nested in the same branch. *)
Definition fullBatteryClamp (v : Vars.t) : Vars.t :=
  match systemMode with
  | ON_GRID => v
  | _ =>
      if Common.isBatteryFull currentBatteryLevel config
         && (Vars.netBatteryFlow v >? 0) then
        let excessCharge := Vars.netBatteryFlow v in
        match systemMode with
        | HYBRID =>
            let v :=
              Vars.set_inverterDrawFromBattery
                (Vars.inverterDrawFromBattery v + excessCharge) v in
            let v :=
              Vars.set_gridExport
                (Vars.gridExport v
                 + excessCharge * Config.inverterEfficiency config) v in
            Vars.set_netBatteryFlow 0 v
        | _ =>
            let v :=
              Vars.set_effectiveControllerOutput
                (Vars.effectiveControllerOutput v - excessCharge) v in
            let v :=
              Vars.set_wastedPower (Vars.wastedPower v + excessCharge) v in
            Vars.set_netBatteryFlow 0 v
        end
      else v
  end.
End Evaluate.

(** "NET GRID FLOW CORRECTION". *)
Definition netGrid (v : Vars.t) : Vars.t :=
  if (Vars.gridImport v >? 0) && (Vars.gridExport v >? 0) then
    if Vars.gridImport v >=? Vars.gridExport v then
      let v := Vars.set_gridImport (Vars.gridImport v - Vars.gridExport v) v in
      Vars.set_gridExport 0 v
    else
      let v := Vars.set_gridExport (Vars.gridExport v - Vars.gridImport v) v in
      Vars.set_gridImport 0 v
  else v.

Section Snapshot.
Variables (sunIntensity acLoad currentBatteryLevel : Q).
Variable config : Config.SystemConfig.
Variable timeOfDay : Q.
Variable systemMode : SystemMode.

(** The variables after steps 5 and 6, inside step 7 before and after the
    full-battery clamp, and at the [return]. *)
Definition afterController : Vars.t :=
  controllerOutput sunIntensity config timeOfDay systemMode
    (demand sunIntensity acLoad currentBatteryLevel config timeOfDay
            systemMode Vars.init).

Definition beforeClamp : Vars.t :=
  rawNetFlow config systemMode afterController.

Definition afterNetFlow : Vars.t :=
  fullBatteryClamp currentBatteryLevel config systemMode beforeClamp.

Definition finalVars : Vars.t := netGrid afterNetFlow.

Definition calculateSystemState : SystemState :=
  let solarStats := Common.solarStats sunIntensity config timeOfDay in
  let controllerToBattStats :=
    calcWire (Vars.powerToBattery afterController)
             (Config.batteryVoltage config) 5 (Config.wireGaugeMm2 config) in
  let v := finalVars in
  let battToInvPower :=
    if Vars.gridChargingPower v >? 0 then Vars.gridChargingPower v
    else Vars.inverterDrawFromBattery v in
  let battToInvStats :=
    calcWire battToInvPower (Config.batteryVoltage config) 5
             (Config.wireGaugeMm2 config) in
  {| Engine.sunIntensity := Common.effectiveIntensity sunIntensity timeOfDay;
     Engine.generation := Common.solarInput sunIntensity config timeOfDay;
     Engine.panelVoltage := Config.panelVoltage config;
     Engine.wireAnalysis := Common.wireAnalysis sunIntensity config timeOfDay;
     Engine.wireStats :=
       {| Wire.solarToController := solarStats;
          Wire.controllerToBattery := controllerToBattStats;
          Wire.batteryToInverter := battToInvStats;
          Wire.inverterToLoad := Common.invToLoadStats acLoad |};
     Engine.powerAtController :=
       Common.powerAtController sunIntensity config timeOfDay;
     Engine.powerToBattery := Vars.effectiveControllerOutput v;
     Engine.batteryLevel := currentBatteryLevel;
     Engine.batteryPercent := Common.batteryPercent currentBatteryLevel config;
     Engine.acLoad := acLoad;
     Engine.inverterInput := Common.inverterInput acLoad config;
     Engine.netBatteryFlow := Vars.netBatteryFlow v;
     Engine.gridActive := Vars.gridActive v;
     Engine.gridExport := Vars.gridExport v;
     Engine.gridImport := Vars.gridImport v;
     Engine.wastedPower := Vars.wastedPower v;
     Engine.battToInvPower := battToInvPower |}.
End Snapshot.
End Engine.

(** ** The host loop of [App] (src/unnamed/part_003)

    The React state of the component, the events that change it, and the
    two effects that write [batteryLevel]: the re-clamp that runs when the
    capacity or the voltage of the configuration changes, and the interval
    callback that integrates the net battery flow.  An event handler
    changes the state, the component renders from the new state, and only
    then do the effects of that render run.  [lastTime] is
    [lastTimeRef.current], in milliseconds. *)

Module App.
Record State : Set := mk {
  sunIntensity : Q;
  timeOfDay : Q;
  acLoad : Q;
  systemMode : SystemMode;
  config : Config.SystemConfig;
  batteryLevel : Q;
  lastTime : Q
}.

Definition initial (now : Q) : State := {|
  App.sunIntensity := 0;
  App.timeOfDay := 9;
  App.acLoad := 100;
  App.systemMode := HYBRID;
  App.config := DEFAULT_CONFIG;
  App.batteryLevel :=
    Config.batteryCapacityAh DEFAULT_CONFIG
    * Config.batteryVoltage DEFAULT_CONFIG * 0.5;
  App.lastTime := now
|}.

(** The updater of the first effect: [prev => Math.min(prev, maxWh)]. *)
Definition reclamp (newConfig : Config.SystemConfig) (prev : Q) : Q :=
  let maxWh :=
    Config.batteryCapacityAh newConfig * Config.batteryVoltage newConfig in
  Qmin prev maxWh.

(** The updater passed to [setBatteryLevel] by the interval callback. *)
Definition integrate (s : State) (dtSeconds prevLevel : Q) : Q :=
  let state :=
    Engine.calculateSystemState (sunIntensity s) (acLoad s) prevLevel
      (config s) (timeOfDay s) (systemMode s) in
  let effectiveDtHours := (dtSeconds * 10) / 3600 in
  let energyChange := Engine.netBatteryFlow state * effectiveDtHours in
  let maxWh :=
    Config.batteryCapacityAh (config s) * Config.batteryVoltage (config s) in
  let newLevel := prevLevel + energyChange in
  Qmax 0 (Qmin newLevel maxWh).

Definition dtSeconds (s : State) (now : Q) : Q := (now - lastTime s) / 1000.

Inductive Event : Set :=
| Tick (now : Q)
| HandleSunChange (intensity time : Q)
| SetAcLoad (load : Q)
| SetSystemMode (mode : SystemMode)
| OnConfigChange (newConfig : Config.SystemConfig).

(** The dependency list of the first effect:
    [config.batteryCapacityAh, config.batteryVoltage]. *)
Definition depsChanged (old new : Config.SystemConfig) : bool :=
  negb (Qeq_bool (Config.batteryCapacityAh old) (Config.batteryCapacityAh new)
        && Qeq_bool (Config.batteryVoltage old) (Config.batteryVoltage new)).

(** The state update of one event handler, as the render that follows it
    sees the state.  [OnConfigChange] is [setConfig]: the configuration
    changes, the stored energy does not. *)
Definition step (s : State) (e : Event) : State :=
  match e with
  | Tick now =>
      mk (sunIntensity s) (timeOfDay s) (acLoad s) (systemMode s) (config s)
         (integrate s (dtSeconds s now) (batteryLevel s)) now
  | HandleSunChange intensity time =>
      mk intensity time (acLoad s) (systemMode s) (config s)
         (batteryLevel s) (lastTime s)
  | SetAcLoad load =>
      mk (sunIntensity s) (timeOfDay s) load (systemMode s) (config s)
         (batteryLevel s) (lastTime s)
  | SetSystemMode mode =>
      mk (sunIntensity s) (timeOfDay s) (acLoad s) mode (config s)
         (batteryLevel s) (lastTime s)
  | OnConfigChange newConfig =>
      mk (sunIntensity s) (timeOfDay s) (acLoad s) (systemMode s) newConfig
         (batteryLevel s) (lastTime s)
  end.

(** The snapshot every render computes from the React state
    ([currentSystemState]) and hands to the diagram. *)
Definition currentSystemState (s : State) : Engine.SystemState :=
  Engine.calculateSystemState (sunIntensity s) (acLoad s) (batteryLevel s)
    (config s) (timeOfDay s) (systemMode s).

(** The re-clamp effect, run after the render of state [s] has been
    committed; [prevConfig] is the configuration of the render before it.
    The effect fires when a dependency changed and its updater gives the
    state of the next render. *)
Definition runEffects (prevConfig : Config.SystemConfig) (s : State) : State :=
  mk (sunIntensity s) (timeOfDay s) (acLoad s) (systemMode s) (config s)
     (if depsChanged prevConfig (config s)
      then reclamp (config s) (batteryLevel s) else batteryLevel s)
     (lastTime s).

(** An event handled to completion: the handler, the render, then the
    effects of that render. *)
Definition settle (s : State) (e : Event) : State :=
  runEffects (config s) (step s e).

Definition run (s : State) (events : list Event) : State :=
  fold_left settle events s.

(** The percentage of the snapshot computed from a React state. *)
Definition percent (s : State) : Q :=
  Common.batteryPercent (batteryLevel s) (config s).
End App.

(** ** The configuration editor (SystemEditor, both copies in
    src/unnamed/part_001)

    [handleChange(field, value)] calls [onConfigChange] with
    [{...config, [field]: value}]; [App] passes [setConfig] for it. *)

Module SystemEditor.
Inductive Field : Set :=
| numPanels | panelWattage | panelVoltage | wireGaugeMm2 | wireLengthFt
| batteryCapacityAh | batteryVoltage | batteryCRating
| inverterEfficiency | controllerEfficiency.

(** The configuration handed to [onConfigChange]:
    [{...config, [field]: value}]. *)
Definition handleChange (config : Config.SystemConfig) (field : Field)
    (value : Q) : Config.SystemConfig :=
  let c := config in
  match field with
  | numPanels =>
      Config.mk value (Config.panelWattage c) (Config.panelVoltage c)
        (Config.wireGaugeMm2 c) (Config.wireLengthFt c)
        (Config.batteryCapacityAh c) (Config.batteryVoltage c)
        (Config.batteryCRating c) (Config.inverterEfficiency c)
        (Config.controllerEfficiency c)
  | panelWattage =>
      Config.mk (Config.numPanels c) value (Config.panelVoltage c)
        (Config.wireGaugeMm2 c) (Config.wireLengthFt c)
        (Config.batteryCapacityAh c) (Config.batteryVoltage c)
        (Config.batteryCRating c) (Config.inverterEfficiency c)
        (Config.controllerEfficiency c)
  | panelVoltage =>
      Config.mk (Config.numPanels c) (Config.panelWattage c) value
        (Config.wireGaugeMm2 c) (Config.wireLengthFt c)
        (Config.batteryCapacityAh c) (Config.batteryVoltage c)
        (Config.batteryCRating c) (Config.inverterEfficiency c)
        (Config.controllerEfficiency c)
  | wireGaugeMm2 =>
      Config.mk (Config.numPanels c) (Config.panelWattage c)
        (Config.panelVoltage c) value (Config.wireLengthFt c)
        (Config.batteryCapacityAh c) (Config.batteryVoltage c)
        (Config.batteryCRating c) (Config.inverterEfficiency c)
        (Config.controllerEfficiency c)
  | wireLengthFt =>
      Config.mk (Config.numPanels c) (Config.panelWattage c)
        (Config.panelVoltage c) (Config.wireGaugeMm2 c) value
        (Config.batteryCapacityAh c) (Config.batteryVoltage c)
        (Config.batteryCRating c) (Config.inverterEfficiency c)
        (Config.controllerEfficiency c)
  | batteryCapacityAh =>
      Config.mk (Config.numPanels c) (Config.panelWattage c)
        (Config.panelVoltage c) (Config.wireGaugeMm2 c)
        (Config.wireLengthFt c) value (Config.batteryVoltage c)
        (Config.batteryCRating c) (Config.inverterEfficiency c)
        (Config.controllerEfficiency c)
  | batteryVoltage =>
      Config.mk (Config.numPanels c) (Config.panelWattage c)
        (Config.panelVoltage c) (Config.wireGaugeMm2 c)
        (Config.wireLengthFt c) (Config.batteryCapacityAh c) value
        (Config.batteryCRating c) (Config.inverterEfficiency c)
        (Config.controllerEfficiency c)
  | batteryCRating =>
      Config.mk (Config.numPanels c) (Config.panelWattage c)
        (Config.panelVoltage c) (Config.wireGaugeMm2 c)
        (Config.wireLengthFt c) (Config.batteryCapacityAh c)
        (Config.batteryVoltage c) value (Config.inverterEfficiency c)
        (Config.controllerEfficiency c)
  | inverterEfficiency =>
      Config.mk (Config.numPanels c) (Config.panelWattage c)
        (Config.panelVoltage c) (Config.wireGaugeMm2 c)
        (Config.wireLengthFt c) (Config.batteryCapacityAh c)
        (Config.batteryVoltage c) (Config.batteryCRating c) value
        (Config.controllerEfficiency c)
  | controllerEfficiency =>
      Config.mk (Config.numPanels c) (Config.panelWattage c)
        (Config.panelVoltage c) (Config.wireGaugeMm2 c)
        (Config.wireLengthFt c) (Config.batteryCapacityAh c)
        (Config.batteryVoltage c) (Config.batteryCRating c)
        (Config.inverterEfficiency c) value
  end.
End SystemEditor.

(** ** The sun control (SunControl.tsx)

    The angle of the sun on the arc is clamped to [0, 180] degrees and
    mapped to the hour handed to the engine; the same expression feeds the
    clock under the arc.  The intensity handed to the engine is
    [Math.sin] of the angle and has no rational model; it stays a
    parameter wherever the hour is used. *)

Module SunControl.
(** [if (theta < 0) theta = 0; if (theta > 180) theta = 180;] *)
Definition clampTheta (theta : Q) : Q :=
  let theta := if theta <? 0 then 0 else theta in
  if theta >? 180 then 180 else theta.

(** [6 + (theta / 180) * 12], in [updateSimulation] and in the clock. *)
Definition timeOfDay (theta : Q) : Q := 6 + (theta / 180) * 12.

(** The three parts the clock string is assembled from: the hour shown
    ([h % 12 || 12]), the minutes ([m], padded to two digits) and whether
    the suffix is PM ([h >= 12]). *)
Definition clock (angle : Q) : Z * Z * bool :=
  let hour := 6 + (angle / 180) * 12 in
  let h := Qfloor hour in
  let m := Qfloor ((hour - inject_Z h) * 60) in
  ((if Z.eqb (Z.rem h 12) 0 then 12 else Z.rem h 12)%Z, m, (12 <=? h)%Z).
End SunControl.

(** ** The sizing calculator (SizingCalculator, first document of
    src/unnamed/part_000) *)

Module Sizing.
Record Appliance : Set := mk {
  id : Q;
  name : string;
  watts : Q;
  hours : Q
}.

(** The React state: the list and the draft being typed ([newAppliance],
    an appliance without [id]). *)
Record State : Set := mkState {
  appliances : list Appliance;
  newName : string;
  newWatts : Q;
  newHours : Q
}.

Definition initial : State := {|
  appliances := [mk 1 "Ceiling Fan" 75 8; mk 2 "LED Bulb" 10 6];
  newName := EmptyString;
  newWatts := 0;
  newHours := 0
|}.

(** Truthiness of a string: non-empty. *)
Definition truthy (s : string) : bool :=
  match s with EmptyString => false | String _ _ => true end.

(** [addAppliance], with [now] the value of [Date.now()]. *)
Definition addAppliance (now : Q) (st : State) : State :=
  if truthy (newName st) && (newWatts st >? 0) then
    {| appliances :=
         appliances st ++ [mk now (newName st) (newWatts st) (newHours st)];
       newName := EmptyString; newWatts := 0; newHours := 0 |}
  else st.

(** [removeAppliance]: keep the appliances with [a.id !== id]. *)
Definition removeAppliance (target : Q) (st : State) : State :=
  {| appliances :=
       filter (fun a => negb (Qeq_bool (id a) target)) (appliances st);
     newName := newName st; newWatts := newWatts st;
     newHours := newHours st |}.

Definition totalWatts (l : list Appliance) : Q :=
  fold_left (fun sum a => sum + watts a) l 0.

Definition totalWhPerDay (l : list Appliance) : Q :=
  fold_left (fun sum a => sum + watts a * hours a) l 0.

Definition recInverterSize (l : list Appliance) : Z :=
  Qceiling (totalWatts l * 1.25).

Definition recBatteryAh24V (l : list Appliance) : Z :=
  Qceiling (totalWhPerDay l / 24 / 0.5).

Definition recPanelWatts (l : list Appliance) : Z :=
  Qceiling (totalWhPerDay l / 5 / 0.7).

Definition recPanelCount (l : list Appliance) : Z :=
  Qceiling (inject_Z (recPanelWatts l) / 250).

Definition num12VBatteries (l : list Appliance) : Z :=
  Qceiling ((inject_Z (recBatteryAh24V l) * 24) / (12 * 150)).

(** The events of the component: typing into the draft, the Add button with
    the clock reading, an "x" button. *)
Inductive Event : Set :=
| SetDraft (name : string) (watts hours : Q)
| Add (now : Q)
| Remove (target : Q).

Definition step (st : State) (e : Event) : State :=
  match e with
  | SetDraft n w h => mkState (appliances st) n w h
  | Add now => addAppliance now st
  | Remove target => removeAppliance target st
  end.

Definition run (st : State) (events : list Event) : State :=
  fold_left step events st.
End Sizing.

(** ** What the diagram shows (SystemDiagram, src/unnamed/part_002)

    The conditions and arrows the component computes from the snapshot. *)

Module Diagram.
(** The grid wire: "In:", "Out:" and "Standby (0 W)" labels. *)
Definition showsIn (state : Engine.SystemState) : bool :=
  Engine.gridImport state >? 0.
Definition showsOut (state : Engine.SystemState) : bool :=
  Engine.gridExport state >? 0.
Definition showsStandby (state : Engine.SystemState) : bool :=
  Qeq_bool (Engine.gridImport state) 0 && Qeq_bool (Engine.gridExport state) 0.

Inductive Arrow : Set := Up | Down | NoArrow.

(** [gridImport > 0 ? up : gridExport > 0 ? down : ''] *)
Definition gridArrow (state : Engine.SystemState) : Arrow :=
  if Engine.gridImport state >? 0 then Up
  else if Engine.gridExport state >? 0 then Down else NoArrow.

(** The arrow of the DC bus between battery and inverter. *)
Definition dcBusArrow (systemMode : SystemMode) (state : Engine.SystemState)
    : Arrow :=
  match systemMode with
  | ON_GRID => Down
  | _ =>
      if Engine.netBatteryFlow state <? 0 then Down
      else if Engine.gridImport state >? Engine.acLoad state then Up
      else Down
  end.

(** The power written on the DC bus. *)
Definition dcBusPower (systemMode : SystemMode) (state : Engine.SystemState)
    : Q :=
  match systemMode with
  | ON_GRID => Engine.generation state
  | _ => Engine.battToInvPower state
  end.

(** The width of the battery bar, in percent. *)
Definition batteryFill (state : Engine.SystemState) : Q :=
  Qmin 100 (Engine.batteryPercent state).
End Diagram.

(** ** The configuration invariant of the data model

    Follows the words of the specification: voltages, capacities, gauges
    (and the C-rating, a denominator) are positive, efficiencies lie in
    (0, 1]. *)

Record validConfig (c : Config.SystemConfig) : Prop := {
  valid_panelVoltage : 0 < Config.panelVoltage c;
  valid_wireGauge : 0 < Config.wireGaugeMm2 c;
  valid_capacity : 0 < Config.batteryCapacityAh c;
  valid_batteryVoltage : 0 < Config.batteryVoltage c;
  valid_cRating : 0 < Config.batteryCRating c;
  valid_inverterEfficiency :
    0 < Config.inverterEfficiency c /\ Config.inverterEfficiency c <= 1;
  valid_controllerEfficiency :
    0 < Config.controllerEfficiency c /\ Config.controllerEfficiency c <= 1
}.

(** ** Vocabulary of the statements *)

(** The emergency charge requested from the grid, on the AC side. *)
Definition emergencyCharge (sunIntensity currentBatteryLevel : Q)
    (config : Config.SystemConfig) (timeOfDay : Q) : Q :=
  if (Common.batteryPercent currentBatteryLevel config <? 20)
     && (Common.effectiveIntensity sunIntensity timeOfDay <? 0.1)
  then Common.maxChargePower config / Config.inverterEfficiency config
  else 0.

(** Stored energy within the capacity of the current configuration. *)
Definition energyInRange (s : App.State) : Prop :=
  0 <= App.batteryLevel s
  /\ App.batteryLevel s <= Common.maxWh (App.config s).

(** Validated battery settings: the capacity and the voltage are positive. *)
Definition batteryConfigOk (c : Config.SystemConfig) : Prop :=
  0 < Config.batteryCapacityAh c /\ 0 < Config.batteryVoltage c.

Definition validEdit (e : App.Event) : Prop :=
  match e with
  | App.OnConfigChange newConfig => batteryConfigOk newConfig
  | _ => True
  end.

Definition batteryInvariant (s : App.State) : Prop :=
  batteryConfigOk (App.config s) /\ energyInRange s.





(** An appliance the Add button accepts: it has a name and positive watts. *)
Definition listed (a : Sizing.Appliance) : Prop :=
  Sizing.truthy (Sizing.name a) = true /\ 0 < Sizing.watts a.

(** * Proofs *)

(** ** Comparisons *)

Lemma Qleb_spec (x y : Q) : BoolSpec (x <= y) (y < x) (x <=? y).
Proof.
  unfold Qleb. destruct (Qle_bool x y) eqn:E; constructor.
  - now apply Qle_bool_iff.
  - apply Qnot_le_lt. intro H. apply Qle_bool_iff in H. congruence.
Qed.

Lemma Qltb_spec (x y : Q) : BoolSpec (x < y) (y <= x) (x <? y).
Proof.
  unfold Qltb. destruct (Qle_bool y x) eqn:E; constructor.
  - now apply Qle_bool_iff.
  - apply Qnot_le_lt. intro H. apply Qle_bool_iff in H. congruence.
Qed.

Ltac vars_simpl :=
  cbn [Vars.inverterDrawFromBattery Vars.gridActive Vars.gridExport
       Vars.gridImport Vars.gridChargingPower Vars.powerToBattery
       Vars.wastedPower Vars.netBatteryFlow Vars.effectiveControllerOutput
       Vars.set_inverterDrawFromBattery Vars.set_gridActive
       Vars.set_gridExport Vars.set_gridImport Vars.set_gridChargingPower
       Vars.set_powerToBattery Vars.set_wastedPower Vars.set_netBatteryFlow
       Vars.set_effectiveControllerOutput Vars.init
       andb orb negb] in *.

Lemma DEFAULT_CONFIG_valid : validConfig DEFAULT_CONFIG.
Proof. constructor; cbn; lra. Qed.

(** ** Wire segment model *)

Lemma resistance_formula (lengthFt gauge : Q) :
  resistance lengthFt gauge == (0.0172 * lengthFt * 0.3048 * 2) / gauge.
Proof. unfold resistance, Qdiv. ring. Qed.

(** C8. A wire segment with [power <= 0] or [voltage <= 0] is all-zero and
    safe; otherwise current is power/voltage, resistance is
    (0.0172 * lengthFt * 0.3048 * 2) / gauge, the loss is current squared
    times resistance, the drop is current times resistance, and the segment
    is safe exactly when the current is at most five times the gauge. *)
Theorem calcWire_spec (power voltage lengthFt gauge : Q) :
  let w := calcWire power voltage lengthFt gauge in
  let r := (0.0172 * lengthFt * 0.3048 * 2) / gauge in
  (power <= 0 \/ voltage <= 0 ->
   w = {| Wire.current := 0; Wire.powerLoss := 0;
          Wire.voltageDrop := 0; Wire.isSafe := true |})
  /\ (~ (power <= 0 \/ voltage <= 0) ->
      Wire.current w = power / voltage
      /\ Wire.powerLoss w == Wire.current w ^ 2 * r
      /\ Wire.voltageDrop w == Wire.current w * r
      /\ (Wire.isSafe w = true <-> Wire.current w <= gauge * 5)).
Proof.
  cbv zeta. unfold calcWire.
  destruct (Qleb_spec power 0) as [Hp | Hp];
    destruct (Qleb_spec voltage 0) as [Hv | Hv]; cbn [orb]; split;
    try (intros _; reflexivity);
    try (intros H; exfalso; apply H; auto; fail);
    try (intros [H | H]; exfalso; lra).
  intros _. cbn [Wire.current Wire.powerLoss Wire.voltageDrop Wire.isSafe].
  rewrite resistance_formula.
  repeat split; try reflexivity.
  - intros H. destruct (Qleb_spec (power / voltage) (gauge * 5));
      [assumption | discriminate].
  - intros H. destruct (Qleb_spec (power / voltage) (gauge * 5));
      [reflexivity | lra].
Qed.

Lemma calcWire_spec_witness :
  calcWire 0 25 20 10
  = {| Wire.current := 0; Wire.powerLoss := 0;
       Wire.voltageDrop := 0; Wire.isSafe := true |}
  /\ Wire.current (calcWire 500 25 20 10) = 500 / 25
  /\ Wire.isSafe (calcWire 500 25 20 10) = true.
Proof.
  split.
  - apply (calcWire_spec 0 25 20 10). left. lra.
  - assert (H : ~ (500 <= 0 \/ 25 <= 0)) by (intros [H | H]; lra).
    destruct (proj2 (calcWire_spec 500 25 20 10) H) as (Hc & _ & _ & Hs).
    split; [exact Hc |].
    apply Hs. rewrite Hc. vm_compute. discriminate.
Defined.

(** ** Engine: generic proof steps

    The stages are unfolded from the innermost outwards; after each one
    the comparisons it makes are split and the record updates reduced, so
    that the next stage starts from an explicit record. *)

Ltac is_explicit t :=
  lazymatch t with
  | context [Engine.demand] => fail
  | context [Engine.controllerOutput] => fail
  | context [Engine.rawNetFlow] => fail
  | context [Engine.fullBatteryClamp] => fail
  | context [Engine.netGrid] => fail
  | _ => idtac
  end.

Ltac split_cmp :=
  unfold Qgeb, Qgtb in *;
  repeat (match goal with
          | |- context [Qleb ?a ?b] =>
              is_explicit a; is_explicit b; destruct (Qleb_spec a b)
          | |- context [Qltb ?a ?b] =>
              is_explicit a; is_explicit b; destruct (Qltb_spec a b)
          end; vars_simpl).

Ltac stage f :=
  unfold f;
  unfold Common.isBatteryFull, Common.powerAvailableForCharging,
         Engine.GRID_THRESHOLD, Engine.GRID_CHARGE_THRESHOLD;
  vars_simpl; split_cmp.

Ltac run_engine :=
  unfold Engine.finalVars, Engine.afterNetFlow, Engine.beforeClamp,
         Engine.afterController in *;
  stage Engine.demand; stage Engine.controllerOutput;
  stage Engine.rawNetFlow; stage Engine.fullBatteryClamp;
  stage Engine.netGrid.

Ltac close_arith := try reflexivity; try lra; try (exfalso; lra).

Ltac snapshot :=
  unfold Engine.calculateSystemState;
  cbn [Engine.sunIntensity Engine.generation Engine.panelVoltage
       Engine.wireAnalysis Engine.wireStats Engine.powerAtController
       Engine.powerToBattery Engine.batteryLevel Engine.batteryPercent
       Engine.acLoad Engine.inverterInput Engine.netBatteryFlow
       Engine.gridActive Engine.gridExport Engine.gridImport
       Engine.wastedPower Engine.battToInvPower].

(** ** Generation stage *)

(** C9. Outside the daylight window [9, 16] the effective sun intensity and
    the generation of the snapshot are 0 whatever intensity is supplied;
    inside it the effective intensity is the supplied one; and generation
    is always panel count times panel wattage times effective intensity. *)
Theorem daylight_window
    (sunIntensity acLoad currentBatteryLevel : Q) (config : Config.SystemConfig)
    (timeOfDay : Q) (systemMode : SystemMode) :
  let s := Engine.calculateSystemState sunIntensity acLoad currentBatteryLevel
             config timeOfDay systemMode in
  (timeOfDay < 9 \/ 16 < timeOfDay ->
   Engine.sunIntensity s = 0 /\ Engine.generation s == 0)
  /\ (9 <= timeOfDay /\ timeOfDay <= 16 ->
      Engine.sunIntensity s = sunIntensity)
  /\ Engine.generation s
     = Config.numPanels config * Config.panelWattage config
       * Engine.sunIntensity s.
Proof.
  cbv zeta. snapshot. unfold Common.solarInput, Common.effectiveIntensity.
  split; [intros H; split | split; [intros [H9 H16] | reflexivity]].
  - destruct H; split_cmp; cbn [orb]; try reflexivity; lra.
  - destruct H; split_cmp; cbn [orb]; try ring; lra.
  - split_cmp; cbn [orb]; try reflexivity; lra.
Qed.

Lemma daylight_window_witness :
  Engine.sunIntensity
    (Engine.calculateSystemState 1 200 3600 DEFAULT_CONFIG 20 HYBRID) = 0
  /\ Engine.generation
       (Engine.calculateSystemState 1 200 3600 DEFAULT_CONFIG 20 HYBRID) == 0
  /\ Engine.sunIntensity
       (Engine.calculateSystemState 1 200 3600 DEFAULT_CONFIG 12 HYBRID) = 1.
Proof.
  destruct (daylight_window 1 200 3600 DEFAULT_CONFIG 20 HYBRID) as [Hout _].
  destruct (daylight_window 1 200 3600 DEFAULT_CONFIG 12 HYBRID) as [_ [Hin _]].
  assert (Hlate : 20 < 9 \/ 16 < 20) by (right; lra).
  assert (Hnoon : 9 <= 12 /\ 12 <= 16) by (split; lra).
  destruct (Hout Hlate) as [Hi Hg].
  split; [exact Hi | split; [exact Hg | exact (Hin Hnoon)]].
Defined.

(** ** ON_GRID routing *)

(** C5. In ON_GRID mode, for every input, the net battery flow and the
    inverter draw from the battery are 0 and the grid is active; with
    solarAC = generation * inverterEfficiency, a surplus [solarAC >= acLoad]
    is exported with no import, a shortfall is imported with no export. *)
Theorem on_grid_routing
    (sunIntensity acLoad currentBatteryLevel : Q) (config : Config.SystemConfig)
    (timeOfDay : Q) :
  let s := Engine.calculateSystemState sunIntensity acLoad currentBatteryLevel
             config timeOfDay ON_GRID in
  let v := Engine.finalVars sunIntensity acLoad currentBatteryLevel
             config timeOfDay ON_GRID in
  let solarAC := Engine.generation s * Config.inverterEfficiency config in
  Engine.netBatteryFlow s = 0
  /\ Vars.inverterDrawFromBattery v = 0
  /\ Engine.battToInvPower s = 0
  /\ Engine.gridActive s = true
  /\ (acLoad <= solarAC ->
      Engine.gridExport s == solarAC - acLoad /\ Engine.gridImport s = 0)
  /\ (solarAC < acLoad ->
      Engine.gridImport s == acLoad - solarAC /\ Engine.gridExport s = 0).
Proof.
  cbv zeta. snapshot.
  run_engine; repeat split; intros; close_arith.
Qed.

Lemma on_grid_routing_witness :
  Engine.gridImport
    (Engine.calculateSystemState 0 200 3600 DEFAULT_CONFIG 12 ON_GRID)
  == 200 - 0 * 0.8
  /\ Engine.gridExport
       (Engine.calculateSystemState 1 200 3600 DEFAULT_CONFIG 12 ON_GRID)
     == 500 * 0.8 - 200.
Proof.
  destruct (on_grid_routing 0 200 3600 DEFAULT_CONFIG 12)
    as (_ & _ & _ & _ & _ & Hnight).
  destruct (on_grid_routing 1 200 3600 DEFAULT_CONFIG 12)
    as (_ & _ & _ & _ & Hnoon & _).
  split.
  - apply Hnight. vm_compute. reflexivity.
  - apply Hnoon. vm_compute. discriminate.
Defined.

(** ** Consequences of the configuration invariant *)

Lemma powerAtController_nonneg (sunIntensity : Q) (config : Config.SystemConfig)
    (timeOfDay : Q) :
  0 <= Common.powerAtController sunIntensity config timeOfDay.
Proof. unfold Common.powerAtController. apply Q.le_max_l. Qed.

Lemma maxChargePower_pos (config : Config.SystemConfig) :
  validConfig config -> 0 < Common.maxChargePower config.
Proof.
  intros [_ _ Hc Hv Hr _ _].
  unfold Common.maxChargePower, Common.maxChargeCurrent.
  apply Qmult_lt_0_compat; [apply Qlt_shift_div_l; lra | exact Hv].
Qed.

Lemma available_nonneg (sunIntensity : Q) (config : Config.SystemConfig)
    (timeOfDay : Q) :
  validConfig config ->
  0 <= Common.powerAvailableForCharging sunIntensity config timeOfDay.
Proof.
  intros Hv. unfold Common.powerAvailableForCharging.
  apply Qmult_le_0_compat.
  - apply powerAtController_nonneg.
  - destruct Hv as [_ _ _ _ _ _ [H _]]. lra.
Qed.

(** ** Grid netting *)

Lemma netGrid_both_positive (v : Vars.t) :
  0 < Vars.gridImport v -> 0 < Vars.gridExport v ->
  (Vars.gridExport v <= Vars.gridImport v ->
   Vars.gridImport (Engine.netGrid v) = Vars.gridImport v - Vars.gridExport v
   /\ Vars.gridExport (Engine.netGrid v) = 0)
  /\ (Vars.gridImport v < Vars.gridExport v ->
      Vars.gridExport (Engine.netGrid v) = Vars.gridExport v - Vars.gridImport v
      /\ Vars.gridImport (Engine.netGrid v) = 0).
Proof.
  intros Hi He. destruct v as [d a ex im c p w n o]. vars_simpl.
  unfold Engine.netGrid. vars_simpl.
  split_cmp; split; intros; split; close_arith.
Qed.

Lemma inverterInput_times_efficiency (acLoad : Q)
    (config : Config.SystemConfig) :
  0 < Config.inverterEfficiency config ->
  Common.inverterInput acLoad config * Config.inverterEfficiency config
  == acLoad.
Proof. intros H. unfold Common.inverterInput. field. lra. Qed.

Lemma grid_charge_nonneg (config : Config.SystemConfig) :
  0 < Config.inverterEfficiency config ->
  0 <= Common.maxChargePower config ->
  0 <= Common.maxChargePower config / Config.inverterEfficiency config.
Proof. intros He Hm. apply Qle_shift_div_l; lra. Qed.

Lemma grid_charge_times_efficiency (config : Config.SystemConfig) :
  0 < Config.inverterEfficiency config ->
  Common.maxChargePower config / Config.inverterEfficiency config
  * Config.inverterEfficiency config == Common.maxChargePower config.
Proof. intros H. field. lra. Qed.

Lemma grid_never_both
    (sunIntensity acLoad currentBatteryLevel : Q) (config : Config.SystemConfig)
    (timeOfDay : Q) (systemMode : SystemMode) :
  0 < Config.inverterEfficiency config ->
  0 <= Common.maxChargePower config ->
  let v := Engine.finalVars sunIntensity acLoad currentBatteryLevel
             config timeOfDay systemMode in
  Vars.gridImport v == 0 \/ Vars.gridExport v == 0.
Proof.
  intros Heff Hmax v. subst v.
  pose proof (inverterInput_times_efficiency acLoad config Heff) as Hinv.
  pose proof (grid_charge_nonneg config Heff Hmax) as Hchg.
  destruct systemMode; run_engine;
    try (left; reflexivity); try (right; reflexivity);
    try (exfalso; lra); exfalso; nra.
Qed.

(** C1. For every mode and every input under the configuration invariant,
    the grid import and export of the snapshot are the values left by the
    netting step, which runs last; when both are positive before it, the
    larger absorbs the smaller and the smaller becomes 0; and the snapshot
    never has both of them non-zero. *)
Theorem grid_netting_invariant
    (sunIntensity acLoad currentBatteryLevel : Q) (config : Config.SystemConfig)
    (timeOfDay : Q) (systemMode : SystemMode) :
  validConfig config ->
  let pre := Engine.afterNetFlow sunIntensity acLoad currentBatteryLevel
               config timeOfDay systemMode in
  let s := Engine.calculateSystemState sunIntensity acLoad currentBatteryLevel
             config timeOfDay systemMode in
  (Engine.gridImport s = Vars.gridImport (Engine.netGrid pre)
   /\ Engine.gridExport s = Vars.gridExport (Engine.netGrid pre))
  /\ (0 < Vars.gridImport pre /\ 0 < Vars.gridExport pre ->
      (Vars.gridExport pre <= Vars.gridImport pre ->
       Engine.gridImport s = Vars.gridImport pre - Vars.gridExport pre
       /\ Engine.gridExport s = 0)
      /\ (Vars.gridImport pre < Vars.gridExport pre ->
          Engine.gridExport s = Vars.gridExport pre - Vars.gridImport pre
          /\ Engine.gridImport s = 0))
  /\ (Engine.gridImport s == 0 \/ Engine.gridExport s == 0).
Proof.
  intros Hvalid pre s. split; [split; reflexivity | split].
  - intros [Hi He]. exact (netGrid_both_positive pre Hi He).
  - apply grid_never_both.
    + destruct Hvalid as [_ _ _ _ _ [H _] _]. exact H.
    + apply Qlt_le_weak. now apply maxChargePower_pos.
Qed.

Lemma grid_netting_invariant_witness :
  Engine.gridImport
    (Engine.calculateSystemState 1 500 1800 DEFAULT_CONFIG 12 HYBRID) == 0
  \/ Engine.gridExport
       (Engine.calculateSystemState 1 500 1800 DEFAULT_CONFIG 12 HYBRID) == 0.
Proof.
  apply (grid_netting_invariant 1 500 1800 DEFAULT_CONFIG 12 HYBRID).
  constructor; cbn; lra.
Defined.

(** ** Full-battery clamp *)

(** C2. Whenever the battery percentage is at least 100 and the net flow
    computed before the clamp is positive, the snapshot's net battery flow
    is 0.  In HYBRID mode the inverter draw grows by the diverted amount
    and the grid export by that amount times the inverter efficiency; in
    OFF_GRID mode the diverted amount is taken off the effective controller
    output and added to the wasted power. *)
Theorem full_battery_clamp
    (sunIntensity acLoad currentBatteryLevel : Q) (config : Config.SystemConfig)
    (timeOfDay : Q) (systemMode : SystemMode) :
  let pre := Engine.beforeClamp sunIntensity acLoad currentBatteryLevel
               config timeOfDay systemMode in
  let v := Engine.finalVars sunIntensity acLoad currentBatteryLevel
             config timeOfDay systemMode in
  let s := Engine.calculateSystemState sunIntensity acLoad currentBatteryLevel
             config timeOfDay systemMode in
  let diverted := Vars.netBatteryFlow pre in
  100 <= Common.batteryPercent currentBatteryLevel config ->
  0 < diverted ->
  Engine.netBatteryFlow s = 0
  /\ (systemMode = HYBRID ->
      Vars.inverterDrawFromBattery v
      == Vars.inverterDrawFromBattery pre + diverted
      /\ Engine.gridExport s
         == Vars.gridExport pre + diverted * Config.inverterEfficiency config)
  /\ (systemMode = OFF_GRID ->
      Engine.powerToBattery s == Vars.effectiveControllerOutput pre - diverted
      /\ Engine.wastedPower s == Vars.wastedPower pre + diverted).
Proof.
  intros pre v s diverted Hfull Hpos. subst diverted pre v s. snapshot.
  unfold Engine.finalVars, Engine.afterNetFlow, Engine.beforeClamp,
         Engine.afterController in *.
  destruct systemMode.
  - revert Hpos.
    stage Engine.demand; stage Engine.controllerOutput;
      stage Engine.rawNetFlow; intros Hpos;
      stage Engine.fullBatteryClamp; stage Engine.netGrid;
      (split; [| split; [discriminate | intros _; split]]); close_arith.
  - revert Hpos.
    stage Engine.demand; stage Engine.controllerOutput;
      stage Engine.rawNetFlow; intros Hpos; exfalso; lra.
  - revert Hpos.
    stage Engine.demand; stage Engine.controllerOutput;
      stage Engine.rawNetFlow; intros Hpos;
      stage Engine.fullBatteryClamp; stage Engine.netGrid;
      (split; [| split; [intros _; split | discriminate]]); close_arith.
Qed.

Lemma full_battery_clamp_witness :
  Engine.netBatteryFlow
    (Engine.calculateSystemState 1 200 7200 DEFAULT_CONFIG 12 HYBRID) = 0
  /\ Engine.netBatteryFlow
       (Engine.calculateSystemState 1 200 7200 DEFAULT_CONFIG 12 OFF_GRID) = 0.
Proof.
  split.
  - apply (full_battery_clamp 1 200 7200 DEFAULT_CONFIG 12 HYBRID).
    + vm_compute. discriminate.
    + vm_compute. reflexivity.
  - apply (full_battery_clamp 1 200 7200 DEFAULT_CONFIG 12 OFF_GRID).
    + vm_compute. discriminate.
    + vm_compute. reflexivity.
Defined.

(** ** HYBRID: grid as last resort and emergency charge *)

(** C3, as the code has it.  In HYBRID mode under a valid configuration,
    with the state of charge at or below 30% and DC-bus solar below the
    inverter demand: the router sets the import to the full AC load, plus
    exactly maxChargePower / inverterEfficiency when the state of charge is
    below 20% and the effective intensity below 0.1, with no inverter draw;
    DC-bus solar above maxChargePower is then exported through the inverter
    and netted, so the snapshot imports that amount less the excess times
    the inverter efficiency, exports nothing and draws the excess.  With
    DC-bus solar at most maxChargePower the import is exactly the load
    (plus the emergency charge) and the draw is 0.  In the emergency case
    the net battery flow is positive. *)
Theorem hybrid_grid_last_resort
    (sunIntensity acLoad currentBatteryLevel : Q) (config : Config.SystemConfig)
    (timeOfDay : Q) :
  validConfig config ->
  Common.batteryPercent currentBatteryLevel config <= 30 ->
  Common.powerAvailableForCharging sunIntensity config timeOfDay
  < Common.inverterInput acLoad config ->
  let routed := Engine.demand sunIntensity acLoad currentBatteryLevel config
                  timeOfDay HYBRID Vars.init in
  let v := Engine.finalVars sunIntensity acLoad currentBatteryLevel
             config timeOfDay HYBRID in
  let s := Engine.calculateSystemState sunIntensity acLoad currentBatteryLevel
             config timeOfDay HYBRID in
  let charge := emergencyCharge sunIntensity currentBatteryLevel config
                  timeOfDay in
  let excess :=
    Qmax 0 (Common.powerAvailableForCharging sunIntensity config timeOfDay
            - Common.maxChargePower config) in
  (Vars.gridImport routed == acLoad + charge
   /\ Vars.inverterDrawFromBattery routed = 0)
  /\ (Engine.gridImport s
      == acLoad + charge - excess * Config.inverterEfficiency config
      /\ Engine.gridExport s == 0
      /\ Vars.inverterDrawFromBattery v == excess)
  /\ (Common.batteryPercent currentBatteryLevel config < 20 ->
      Common.effectiveIntensity sunIntensity timeOfDay < 0.1 ->
      charge = Common.maxChargePower config / Config.inverterEfficiency config
      /\ 0 < Engine.netBatteryFlow s).
Proof.
  intros Hvalid Hsoc Hsolar routed v s charge excess.
  pose proof (maxChargePower_pos config Hvalid) as Hmax.
  pose proof (available_nonneg sunIntensity config timeOfDay Hvalid) as Havail.
  assert (Heff : 0 < Config.inverterEfficiency config)
    by (destruct Hvalid as [_ _ _ _ _ [H _] _]; exact H).
  pose proof (inverterInput_times_efficiency acLoad config Heff) as Hinv.
  pose proof (grid_charge_times_efficiency config Heff) as Hchg.
  pose proof (grid_charge_nonneg config Heff (Qlt_le_weak _ _ Hmax)) as Hchg0.
  assert (Hexcess :
    (Common.powerAvailableForCharging sunIntensity config timeOfDay
     <= Common.maxChargePower config /\ excess == 0)
    \/ (Common.maxChargePower config
        < Common.powerAvailableForCharging sunIntensity config timeOfDay
        /\ excess
           == Common.powerAvailableForCharging sunIntensity config timeOfDay
              - Common.maxChargePower config)).
  { subst excess.
    destruct (Q.max_spec 0
      (Common.powerAvailableForCharging sunIntensity config timeOfDay
       - Common.maxChargePower config)) as [[H1 H2] | [H1 H2]];
      rewrite H2; [right | left]; split; lra. }
  clearbody excess.
  subst routed v s charge. unfold emergencyCharge. snapshot.
  unfold Common.powerAvailableForCharging in *.
  split; [| split].
  - stage Engine.demand; split; close_arith.
  - destruct Hexcess as [[He1 He2] | [He1 He2]];
      run_engine; repeat split; close_arith; try nra; exfalso; nra.
  - intros H20 Hlow.
    destruct Hexcess as [[He1 He2] | [He1 He2]];
      run_engine; split; close_arith; try nra; exfalso; nra.
Qed.

Lemma hybrid_grid_last_resort_witness :
  Engine.gridExport
    (Engine.calculateSystemState 1 500 1800 DEFAULT_CONFIG 12 HYBRID) == 0.
Proof.
  apply (hybrid_grid_last_resort 1 500 1800 DEFAULT_CONFIG 12).
  - constructor; cbn; lra.
  - vm_compute. discriminate.
  - vm_compute. reflexivity.
Defined.

(** C3 as stated fails: at 25% state of charge with full sun at noon and a
    500 W load, DC-bus solar (about 442 W) is below the inverter demand
    (625 W) but above maxChargePower (360 W); the excess is exported and
    netted, so the import is below the load and the inverter draw is not 0. *)
Lemma hybrid_import_below_full_load :
  let s := Engine.calculateSystemState 1 500 1800 DEFAULT_CONFIG 12 HYBRID in
  let v := Engine.finalVars 1 500 1800 DEFAULT_CONFIG 12 HYBRID in
  Common.batteryPercent 1800 DEFAULT_CONFIG <= 30
  /\ Common.powerAvailableForCharging 1 DEFAULT_CONFIG 12
     < Common.inverterInput 500 DEFAULT_CONFIG
  /\ Engine.gridImport s < 500
  /\ 0 < Vars.inverterDrawFromBattery v
  /\ ~ (Engine.gridImport s == 500 /\ Vars.inverterDrawFromBattery v == 0).
Proof.
  cbv zeta. repeat split.
  - vm_compute. discriminate.
  - intros [H _]. vm_compute in H. discriminate.
Qed.

(** ** Charge ceiling *)

(** C4 fails on the code.  With the default configuration in HYBRID mode,
    15% state of charge, a 500 W load and a sun intensity of 0.05 at noon,
    the emergency charge from the grid (maxChargePower) is added to the
    controller's solar output, and the net battery flow (about 382 W)
    exceeds maxChargePower (360 W). *)
Theorem emergency_charge_exceeds_ceiling :
  let s := Engine.calculateSystemState 0.05 500 1080 DEFAULT_CONFIG 12 HYBRID in
  validConfig DEFAULT_CONFIG
  /\ Common.maxChargePower DEFAULT_CONFIG == 360
  /\ Engine.netBatteryFlow s == 2988133803 # 7812500
  /\ Common.maxChargePower DEFAULT_CONFIG < Engine.netBatteryFlow s.
Proof.
  cbv zeta. split; [exact DEFAULT_CONFIG_valid |].
  repeat split; vm_compute; reflexivity.
Qed.

(** Outside the emergency-charge path the ceiling holds: when no power is
    requested from the grid for charging, the net battery flow is at most
    maxChargePower. *)
Lemma net_flow_ceiling_without_grid_charge
    (sunIntensity acLoad currentBatteryLevel : Q) (config : Config.SystemConfig)
    (timeOfDay : Q) (systemMode : SystemMode) :
  0 <= Common.maxChargePower config ->
  let v := Engine.finalVars sunIntensity acLoad currentBatteryLevel
             config timeOfDay systemMode in
  let s := Engine.calculateSystemState sunIntensity acLoad currentBatteryLevel
             config timeOfDay systemMode in
  Vars.gridChargingPower v == 0 ->
  Engine.netBatteryFlow s <= Common.maxChargePower config.
Proof.
  intros Hmax v s. subst v s. snapshot.
  unfold Engine.finalVars, Engine.afterNetFlow, Engine.beforeClamp,
         Engine.afterController.
  destruct systemMode; run_engine; intros Hc; try lra;
    try (rewrite Hc in *; lra).
Qed.

(** ** Energy integrator and re-clamp *)

Lemma maxWh_pos (c : Config.SystemConfig) :
  batteryConfigOk c -> 0 < Common.maxWh c.
Proof. intros [Hc Hv]. unfold Common.maxWh. now apply Qmult_lt_0_compat. Qed.

Lemma clamp_bounds (x hi : Q) :
  0 <= hi -> 0 <= Qmax 0 (Qmin x hi) /\ Qmax 0 (Qmin x hi) <= hi.
Proof.
  intros Hhi.
  destruct (Q.max_spec 0 (Qmin x hi)) as [[L E] | [L E]];
    destruct (Q.min_spec x hi) as [[L' E'] | [L' E']];
    split; lra.
Qed.

Lemma clamp_id (x hi : Q) : 0 <= x -> x <= hi -> Qmax 0 (Qmin x hi) == x.
Proof.
  intros H0 Hhi.
  destruct (Q.max_spec 0 (Qmin x hi)) as [[L E] | [L E]];
    destruct (Q.min_spec x hi) as [[L' E'] | [L' E']];
    lra.
Qed.

Lemma integrate_bounds (s : App.State) (dtSeconds prevLevel : Q) :
  0 <= Common.maxWh (App.config s) ->
  0 <= App.integrate s dtSeconds prevLevel
  /\ App.integrate s dtSeconds prevLevel <= Common.maxWh (App.config s).
Proof. intros H. unfold App.integrate. now apply clamp_bounds. Qed.

Lemma reclamp_bounds (newConfig : Config.SystemConfig) (prev : Q) :
  batteryConfigOk newConfig -> 0 <= prev ->
  0 <= App.reclamp newConfig prev
  /\ App.reclamp newConfig prev <= Common.maxWh newConfig.
Proof.
  intros Hc Hp. pose proof (maxWh_pos _ Hc) as Hm.
  unfold App.reclamp. fold (Common.maxWh newConfig).
  destruct (Q.min_spec prev (Common.maxWh newConfig)) as [[L E] | [L E]];
    split; lra.
Qed.

Lemma depsChanged_false (old new : Config.SystemConfig) :
  App.depsChanged old new = false -> Common.maxWh old == Common.maxWh new.
Proof.
  unfold App.depsChanged. intros H.
  apply negb_false_iff, andb_true_iff in H. destruct H as [Hc Hv].
  apply Qeq_bool_eq in Hc, Hv. unfold Common.maxWh. now rewrite Hc, Hv.
Qed.

Lemma depsChanged_same (c : Config.SystemConfig) :
  App.depsChanged c c = false.
Proof. unfold App.depsChanged. now rewrite !Qeq_bool_refl. Qed.

Lemma settle_invariant (s : App.State) (e : App.Event) :
  validEdit e -> batteryInvariant s -> batteryInvariant (App.settle s e).
Proof.
  intros He [Hc [H0 Hhi]]. unfold batteryInvariant, energyInRange.
  destruct e as [now | i t | l | m | c];
    cbn [App.settle App.runEffects App.step App.config App.batteryLevel];
    try rewrite depsChanged_same;
    try (split; [assumption | split; assumption]).
  - split; [assumption |]. apply integrate_bounds. lra.
  - cbn in He. split; [assumption |].
    destruct (App.depsChanged (App.config s) c) eqn:Hd.
    + now apply reclamp_bounds.
    + apply depsChanged_false in Hd. split; lra.
Qed.

Lemma run_invariant (events : list App.Event) (s : App.State) :
  Forall validEdit events -> batteryInvariant s ->
  batteryInvariant (App.run s events).
Proof.
  revert s. induction events as [| e events IH]; intros s Hall Hinv.
  - exact Hinv.
  - inversion Hall as [| ? ? He Hrest]; subst. cbn [App.run fold_left].
    apply IH; [assumption |]. now apply settle_invariant.
Qed.

Lemma Forall_prefix {A : Type} (P : A -> Prop) (n : nat) (l : list A) :
  Forall P l -> Forall P (firstn n l).
Proof.
  revert l. induction n as [| n IH]; intros l H; cbn [firstn].
  - constructor.
  - destruct H; constructor; auto.
Qed.

Lemma percent_bounds (s : App.State) :
  batteryInvariant s -> 0 <= App.percent s /\ App.percent s <= 100.
Proof.
  intros [Hc [H0 Hhi]]. pose proof (maxWh_pos _ Hc) as Hm.
  unfold App.percent, Common.batteryPercent.
  assert (0 <= App.batteryLevel s / Common.maxWh (App.config s))
    by (apply Qle_shift_div_l; lra).
  assert (App.batteryLevel s / Common.maxWh (App.config s) <= 1)
    by (apply Qle_shift_div_r; lra).
  split; lra.
Qed.

(** C6, as the code has it.  Starting from a stored energy in
    [0, capacity * voltage], after every event of any sequence of host
    events (integrator ticks, input changes, edits to validated
    configurations), once the effects of the event have run, the stored
    energy is in [0, capacity * voltage] of the current configuration and
    the battery percentage is in [0, 100].  An edit of the configuration
    is first rendered with the new configuration and the old stored energy;
    the re-clamp effect that follows leaves the stored energy at the
    minimum of its old value and the new maximum, and the percentage at
    most 100 from then on. *)
Theorem battery_energy_bounds (s : App.State) (events : list App.Event) :
  batteryConfigOk (App.config s) -> energyInRange s ->
  Forall validEdit events ->
  (forall n : nat,
     let s' := App.run s (firstn n events) in
     energyInRange s' /\ 0 <= App.percent s' /\ App.percent s' <= 100)
  /\ (forall newConfig : Config.SystemConfig,
        batteryConfigOk newConfig ->
        let s1 := App.run s events in
        let rendered := App.step s1 (App.OnConfigChange newConfig) in
        let s2 := App.runEffects (App.config s1) rendered in
        (App.config rendered = newConfig
         /\ App.batteryLevel rendered = App.batteryLevel s1)
        /\ App.config s2 = newConfig
        /\ App.batteryLevel s2
           == Qmin (App.batteryLevel s1) (Common.maxWh newConfig)
        /\ App.percent s2 <= 100).
Proof.
  intros Hc Hr Hall. split.
  - intros n s'.
    assert (Hinv : batteryInvariant s').
    { apply run_invariant; [now apply Forall_prefix | split; assumption]. }
    split; [apply Hinv | now apply percent_bounds].
  - intros newConfig Hnew s1 rendered s2.
    assert (Hinv : batteryInvariant s1)
      by (apply run_invariant; [assumption | split; assumption]).
    assert (Hinv2 : batteryInvariant s2)
      by (apply (settle_invariant s1 (App.OnConfigChange newConfig));
          [exact Hnew | exact Hinv]).
    split; [split; reflexivity |].
    split; [reflexivity | split; [| now apply percent_bounds]].
    subst s2 rendered.
    cbn [App.runEffects App.step App.batteryLevel App.config].
    destruct (App.depsChanged (App.config s1) newConfig) eqn:Hd.
    + reflexivity.
    + apply depsChanged_false in Hd. destruct Hinv as [_ [H0 Hhi]].
      destruct (Q.min_spec (App.batteryLevel s1) (Common.maxWh newConfig))
        as [[L E] | [L E]]; lra.
Qed.

Lemma battery_energy_bounds_witness :
  let smaller :=
    Config.mk 2 250 25 10 20 100 24 20 0.8 0.9 in
  let events :=
    [App.Tick 100; App.OnConfigChange smaller; App.SetSystemMode OFF_GRID;
     App.Tick 200] in
  energyInRange (App.run (App.initial 0) events)
  /\ App.percent (App.run (App.initial 0) events) <= 100.
Proof.
  intros smaller events.
  assert (Hc : batteryConfigOk (App.config (App.initial 0)))
    by (split; cbn; lra).
  assert (Hr : energyInRange (App.initial 0))
    by (split; vm_compute; discriminate).
  assert (Hall : Forall validEdit events)
    by (repeat constructor; cbn; lra).
  destruct (battery_energy_bounds (App.initial 0) events Hc Hr Hall)
    as [Hsteps _].
  destruct (Hsteps 4%nat) as (Hrange & _ & Hpct).
  split; [exact Hrange | exact Hpct].
Defined.

(** C6 as stated fails between an edit and its effect.  With the default
    configuration at 3600 Wh (50%), editing the capacity from 300 Ah to
    100 Ah is rendered with the new maximum of 2400 Wh and the old stored
    energy: the snapshot of that render reports 150%.  Both configurations
    are validated and the energy was in range before the edit. *)
Lemma edit_render_exceeds_100 :
  let s := App.initial 0 in
  let smaller := Config.mk 2 250 25 10 20 100 24 20 0.8 0.9 in
  let rendered := App.step s (App.OnConfigChange smaller) in
  validConfig (App.config s) /\ validConfig smaller
  /\ energyInRange s
  /\ Engine.batteryPercent (App.currentSystemState rendered) == 150
  /\ ~ App.percent rendered <= 100
  /\ ~ App.batteryLevel rendered <= Common.maxWh (App.config rendered).
Proof.
  cbv zeta. split; [| split; [| split]].
  - constructor; cbn; lra.
  - constructor; cbn; lra.
  - split; vm_compute; discriminate.
  - repeat split; intros H; vm_compute in H; apply H; reflexivity.
Qed.

(** C7, as the code has it.  A tick with zero elapsed time leaves a stored
    energy in [0, maxWh] unchanged. *)
Theorem tick_zero_elapsed (s : App.State) (now : Q) :
  energyInRange s ->
  App.dtSeconds s now == 0 ->
  App.batteryLevel (App.step s (App.Tick now)) == App.batteryLevel s.
Proof.
  intros [H0 Hhi] Hdt. cbn [App.step App.batteryLevel].
  unfold App.integrate. fold (Common.maxWh (App.config s)).
  rewrite Hdt.
  setoid_replace
    (App.batteryLevel s
     + Engine.netBatteryFlow
         (Engine.calculateSystemState (App.sunIntensity s) (App.acLoad s)
            (App.batteryLevel s) (App.config s) (App.timeOfDay s)
            (App.systemMode s)) * (0 * 10 / 3600))
    with (App.batteryLevel s) by (unfold Qdiv; ring).
  now apply clamp_id.
Qed.

Lemma tick_zero_elapsed_witness :
  App.batteryLevel (App.step (App.initial 5000) (App.Tick 5000))
  == App.batteryLevel (App.initial 5000).
Proof.
  apply (tick_zero_elapsed (App.initial 5000) 5000).
  - split; vm_compute; discriminate.
  - vm_compute. reflexivity.
Defined.

(** C7 as stated fails for a negative elapsed time: the callback has no
    guard, so the flow is integrated backwards.  With the clock 360 s behind
    the previous tick, the initial state (HYBRID, 50% charge, no sun, 100 W
    load, net flow -125 W) gains 125 Wh. *)
Lemma negative_elapsed_time_changes_energy :
  let s := App.initial 360000 in
  App.dtSeconds s 0 <= 0
  /\ energyInRange s
  /\ App.batteryLevel s == 3600
  /\ App.batteryLevel (App.step s (App.Tick 0)) == 3725
  /\ ~ App.batteryLevel (App.step s (App.Tick 0)) == App.batteryLevel s.
Proof.
  cbv zeta. repeat split; vm_compute; discriminate.
Qed.

(** ** The two copies of the engine *)



(** ** Scenarios of the specification, evaluated on the current copy *)

(** Default configuration, full sun at noon, 200 W load, HYBRID, 50% charge:
    500 W generated, 20 A on the solar leg, 250 W inverter demand, grid
    active but idle. *)
Example scenario_hybrid_noon :
  let s := Engine.calculateSystemState 1 200 3600 DEFAULT_CONFIG 12 HYBRID in
  Engine.generation s == 500
  /\ Wire.current (Wire.solarToController (Engine.wireStats s)) == 20
  /\ Engine.inverterInput s == 250
  /\ Engine.gridActive s = true
  /\ Engine.gridImport s == 0
  /\ Engine.gridExport s == 0.
Proof. cbv zeta. repeat split; vm_compute; reflexivity. Qed.

(** Same configuration at night in ON_GRID mode: the load is imported and a
    tick leaves the stored energy where it was. *)
Example scenario_on_grid_night :
  let s := Engine.calculateSystemState 0 200 3600 DEFAULT_CONFIG 12 ON_GRID in
  let host := App.mk 0 12 200 ON_GRID DEFAULT_CONFIG 3600 0 in
  Engine.gridImport s == 200
  /\ Engine.gridExport s == 0
  /\ App.batteryLevel (App.step host (App.Tick 100)) == 3600.
Proof. cbv zeta. repeat split; vm_compute; reflexivity. Qed.

(** HYBRID at 15% charge without sun and a 500 W load: the import is the
    load plus the emergency charge (360 / 0.8 = 450 W) and the battery
    charges at 360 W. *)
Example scenario_hybrid_emergency :
  let s := Engine.calculateSystemState 0 500 1080 DEFAULT_CONFIG 12 HYBRID in
  Engine.gridImport s == 500 + 450
  /\ Engine.netBatteryFlow s == 360.
Proof. cbv zeta. repeat split; vm_compute; reflexivity. Qed.

(** * Further properties of the engine *)

Lemma net_flow_ceiling_without_grid_charge_witness :
  Engine.netBatteryFlow
    (Engine.calculateSystemState 1 200 3600 DEFAULT_CONFIG 12 HYBRID)
  <= Common.maxChargePower DEFAULT_CONFIG.
Proof.
  apply (net_flow_ceiling_without_grid_charge 1 200 3600 DEFAULT_CONFIG 12
           HYBRID).
  - vm_compute. discriminate.
  - vm_compute. reflexivity.
Defined.

(** ** OFF_GRID *)

(** In OFF_GRID mode, for every input, the grid is inactive with no import
    and no export, and the battery feeds the whole inverter demand whatever
    its state of charge. *)
Theorem off_grid_isolated
    (sunIntensity acLoad currentBatteryLevel : Q) (config : Config.SystemConfig)
    (timeOfDay : Q) :
  let s := Engine.calculateSystemState sunIntensity acLoad currentBatteryLevel
             config timeOfDay OFF_GRID in
  let v := Engine.finalVars sunIntensity acLoad currentBatteryLevel
             config timeOfDay OFF_GRID in
  Engine.gridActive s = false
  /\ Engine.gridImport s = 0
  /\ Engine.gridExport s = 0
  /\ Vars.inverterDrawFromBattery v = Common.inverterInput acLoad config
  /\ Engine.battToInvPower s = Common.inverterInput acLoad config.
Proof.
  cbv zeta. snapshot. run_engine; repeat split; close_arith.
Qed.

(** In OFF_GRID mode, for every input, the net battery flow is the smaller of
    (available controller power - inverter demand) and maxChargePower,
    and additionally at most 0 once the battery is full. *)
Theorem off_grid_net_flow
    (sunIntensity acLoad currentBatteryLevel : Q) (config : Config.SystemConfig)
    (timeOfDay : Q) :
  let s := Engine.calculateSystemState sunIntensity acLoad currentBatteryLevel
             config timeOfDay OFF_GRID in
  let surplus :=
    Qmin (Common.powerAvailableForCharging sunIntensity config timeOfDay
          - Common.inverterInput acLoad config)
         (Common.maxChargePower config) in
  (Common.batteryPercent currentBatteryLevel config < 100 ->
   Engine.netBatteryFlow s == surplus)
  /\ (100 <= Common.batteryPercent currentBatteryLevel config ->
      Engine.netBatteryFlow s == Qmin surplus 0).
Proof.
  cbv zeta. snapshot.
  set (surplus :=
    Qmin (Common.powerAvailableForCharging sunIntensity config timeOfDay
          - Common.inverterInput acLoad config)
         (Common.maxChargePower config)).
  pose proof (Q.min_spec
    (Common.powerAvailableForCharging sunIntensity config timeOfDay
     - Common.inverterInput acLoad config)
    (Common.maxChargePower config)) as Hs.
  fold surplus in Hs.
  pose proof (Q.min_spec surplus 0) as Hs0.
  generalize dependent (Qmin surplus 0). intros capped Hs0.
  clearbody surplus. unfold Common.powerAvailableForCharging in *.
  split; intros Hfull;
    destruct Hs as [[? ?] | [? ?]]; destruct Hs0 as [[? ?] | [? ?]];
    run_engine; close_arith.
Qed.

Lemma off_grid_net_flow_witness :
  Engine.netBatteryFlow
    (Engine.calculateSystemState 0 100 3600 DEFAULT_CONFIG 12 OFF_GRID)
  == Qmin (0 - 125) 360.
Proof.
  destruct (off_grid_net_flow 0 100 3600 DEFAULT_CONFIG 12) as [H _].
  assert (Hp : Common.batteryPercent 3600 DEFAULT_CONFIG < 100)
    by (vm_compute; reflexivity).
  rewrite (H Hp). vm_compute. reflexivity.
Defined.

(** ** Accounting on the DC bus *)

(** For every input, the power available at the controller output is fully
    accounted for: in OFF_GRID mode what the controller does not deliver is
    recorded as wasted; HYBRID mode delivers all of it and wastes nothing;
    ON_GRID mode delivers and wastes nothing. *)
Theorem controller_power_accounting
    (sunIntensity acLoad currentBatteryLevel : Q) (config : Config.SystemConfig)
    (timeOfDay : Q) (systemMode : SystemMode) :
  let s := Engine.calculateSystemState sunIntensity acLoad currentBatteryLevel
             config timeOfDay systemMode in
  let available :=
    Common.powerAvailableForCharging sunIntensity config timeOfDay in
  match systemMode with
  | OFF_GRID => Engine.powerToBattery s + Engine.wastedPower s == available
  | HYBRID => Engine.powerToBattery s == available /\ Engine.wastedPower s == 0
  | ON_GRID => Engine.powerToBattery s == 0 /\ Engine.wastedPower s == 0
  end.
Proof.
  cbv zeta. snapshot. unfold Common.powerAvailableForCharging.
  destruct systemMode; run_engine; repeat split; close_arith.
Qed.

(** For every mode and input, the reported net battery flow balances the
    DC bus: controller output plus grid charge (on the DC side) minus the
    inverter draw.  The full-battery clamp keeps this balance. *)
Theorem dc_bus_balance
    (sunIntensity acLoad currentBatteryLevel : Q) (config : Config.SystemConfig)
    (timeOfDay : Q) (systemMode : SystemMode) :
  let s := Engine.calculateSystemState sunIntensity acLoad currentBatteryLevel
             config timeOfDay systemMode in
  let v := Engine.finalVars sunIntensity acLoad currentBatteryLevel
             config timeOfDay systemMode in
  Engine.netBatteryFlow s
  == Engine.powerToBattery s
     + Vars.gridChargingPower v * Config.inverterEfficiency config
     - Vars.inverterDrawFromBattery v.
Proof.
  cbv zeta. snapshot.
  destruct systemMode; run_engine; close_arith.
Qed.

Lemma engine_outputs_nonneg
    (sunIntensity acLoad currentBatteryLevel : Q) (config : Config.SystemConfig)
    (timeOfDay : Q) (systemMode : SystemMode) :
  validConfig config -> 0 <= acLoad ->
  let v := Engine.finalVars sunIntensity acLoad currentBatteryLevel
             config timeOfDay systemMode in
  0 <= Vars.gridImport v
  /\ 0 <= Vars.gridExport v
  /\ 0 <= Vars.wastedPower v
  /\ 0 <= Vars.effectiveControllerOutput v.
Proof.
  intros Hvalid Hload v. subst v.
  pose proof (maxChargePower_pos config Hvalid) as Hmax.
  pose proof (available_nonneg sunIntensity config timeOfDay Hvalid) as Havail.
  assert (Heff : 0 < Config.inverterEfficiency config)
    by (destruct Hvalid as [_ _ _ _ _ [H _] _]; exact H).
  pose proof (inverterInput_times_efficiency acLoad config Heff) as Hinv.
  pose proof (grid_charge_times_efficiency config Heff) as Hchg.
  pose proof (grid_charge_nonneg config Heff (Qlt_le_weak _ _ Hmax)) as Hchg0.
  assert (Hii : 0 <= Common.inverterInput acLoad config)
    by (unfold Common.inverterInput; apply Qle_shift_div_l; lra).
  unfold Common.powerAvailableForCharging in *.
  destruct systemMode; run_engine; repeat split; close_arith; nra.
Qed.

(** Under the configuration invariant and a non-negative load, the grid
    import, the grid export, the wasted power and the controller output of
    the snapshot are never negative. *)
Theorem outputs_nonneg
    (sunIntensity acLoad currentBatteryLevel : Q) (config : Config.SystemConfig)
    (timeOfDay : Q) (systemMode : SystemMode) :
  validConfig config -> 0 <= acLoad ->
  let s := Engine.calculateSystemState sunIntensity acLoad currentBatteryLevel
             config timeOfDay systemMode in
  0 <= Engine.gridImport s
  /\ 0 <= Engine.gridExport s
  /\ 0 <= Engine.wastedPower s
  /\ 0 <= Engine.powerToBattery s.
Proof.
  intros Hvalid Hload s.
  exact (engine_outputs_nonneg sunIntensity acLoad currentBatteryLevel config
           timeOfDay systemMode Hvalid Hload).
Qed.

Lemma outputs_nonneg_witness :
  0 <= Engine.gridImport
         (Engine.calculateSystemState 1 500 1800 DEFAULT_CONFIG 12 HYBRID).
Proof.
  apply (outputs_nonneg 1 500 1800 DEFAULT_CONFIG 12 HYBRID).
  - constructor; cbn; lra.
  - lra.
Defined.

(** ** HYBRID *)

(** In HYBRID mode with the state of charge above the 30% reserve, for every
    input, nothing is imported and the grid is marked active; every watt
    the controller delivers beyond the inverter demand and the battery's
    net intake is exported (times the inverter efficiency); and the battery
    takes in at most maxChargePower when that ceiling is not negative. *)
Theorem hybrid_above_reserve
    (sunIntensity acLoad currentBatteryLevel : Q) (config : Config.SystemConfig)
    (timeOfDay : Q) :
  30 < Common.batteryPercent currentBatteryLevel config ->
  let s := Engine.calculateSystemState sunIntensity acLoad currentBatteryLevel
             config timeOfDay HYBRID in
  Engine.gridActive s = true
  /\ Engine.gridImport s = 0
  /\ Engine.gridExport s
     == (Common.powerAvailableForCharging sunIntensity config timeOfDay
         - Common.inverterInput acLoad config - Engine.netBatteryFlow s)
        * Config.inverterEfficiency config
  /\ (0 <= Common.maxChargePower config ->
      Engine.netBatteryFlow s <= Common.maxChargePower config).
Proof.
  intros Hsoc s. subst s. snapshot.
  unfold Common.powerAvailableForCharging in *.
  run_engine; repeat split; intros; close_arith.
Qed.

Lemma hybrid_above_reserve_witness :
  Engine.gridImport
    (Engine.calculateSystemState 1 200 3600 DEFAULT_CONFIG 12 HYBRID) = 0.
Proof.
  apply (hybrid_above_reserve 1 200 3600 DEFAULT_CONFIG 12).
  vm_compute. reflexivity.
Defined.

(** In HYBRID mode under the configuration invariant, a battery at or below
    the 30% reserve is never discharged: the net battery flow is not
    negative, whatever the sun and the load. *)
Theorem hybrid_reserve_protection
    (sunIntensity acLoad currentBatteryLevel : Q) (config : Config.SystemConfig)
    (timeOfDay : Q) :
  validConfig config ->
  Common.batteryPercent currentBatteryLevel config <= 30 ->
  0 <= Engine.netBatteryFlow
         (Engine.calculateSystemState sunIntensity acLoad currentBatteryLevel
            config timeOfDay HYBRID).
Proof.
  intros Hvalid Hsoc.
  pose proof (maxChargePower_pos config Hvalid) as Hmax.
  pose proof (available_nonneg sunIntensity config timeOfDay Hvalid) as Havail.
  assert (Heff : 0 < Config.inverterEfficiency config)
    by (destruct Hvalid as [_ _ _ _ _ [H _] _]; exact H).
  pose proof (grid_charge_times_efficiency config Heff) as Hchg.
  snapshot. unfold Common.powerAvailableForCharging in *.
  run_engine; close_arith.
Qed.

Lemma hybrid_reserve_protection_witness :
  0 <= Engine.netBatteryFlow
         (Engine.calculateSystemState 0 500 1800 DEFAULT_CONFIG 12 HYBRID).
Proof.
  apply (hybrid_reserve_protection 0 500 1800 DEFAULT_CONFIG 12).
  - constructor; cbn; lra.
  - vm_compute. discriminate.
Defined.

(** Under the configuration invariant the net battery flow never exceeds
    twice maxChargePower, in any mode and for any input: the emergency
    charge adds at most one maxChargePower to a controller share that is
    itself capped at maxChargePower. *)
Theorem net_flow_at_most_twice_ceiling
    (sunIntensity acLoad currentBatteryLevel : Q) (config : Config.SystemConfig)
    (timeOfDay : Q) (systemMode : SystemMode) :
  validConfig config ->
  Engine.netBatteryFlow
    (Engine.calculateSystemState sunIntensity acLoad currentBatteryLevel
       config timeOfDay systemMode)
  <= 2 * Common.maxChargePower config.
Proof.
  intros Hvalid.
  pose proof (maxChargePower_pos config Hvalid) as Hmax.
  assert (Heff : 0 < Config.inverterEfficiency config)
    by (destruct Hvalid as [_ _ _ _ _ [H _] _]; exact H).
  pose proof (grid_charge_times_efficiency config Heff) as Hchg.
  snapshot. unfold Common.powerAvailableForCharging in *.
  destruct systemMode; run_engine; close_arith.
Qed.

Lemma net_flow_at_most_twice_ceiling_witness :
  Engine.netBatteryFlow
    (Engine.calculateSystemState 0.05 500 1080 DEFAULT_CONFIG 12 HYBRID)
  <= 2 * Common.maxChargePower DEFAULT_CONFIG.
Proof.
  apply (net_flow_at_most_twice_ceiling 0.05 500 1080 DEFAULT_CONFIG 12 HYBRID).
  constructor; cbn; lra.
Defined.

(** ** The earlier copy *)

Ltac legacy_snapshot :=
  unfold Legacy.calculateSystemState, Legacy.charging, Legacy.routing,
         Common.isBatteryFull, Common.powerAvailableForCharging;
  cbn [Legacy.netBatteryFlow Legacy.gridImport Legacy.gridExport
       Legacy.gridActive Legacy.powerToBattery Legacy.wastedPower].

(** The earlier copy keeps the charge ceiling: with a non-negative load, a
    positive inverter efficiency and a non-negative maxChargePower its net
    battery flow never exceeds maxChargePower; and for every input its grid
    import and export are never both non-zero. *)
Theorem legacy_ceiling_and_netting
    (sunIntensity acLoad currentBatteryLevel : Q) (config : Config.SystemConfig)
    (timeOfDay : Q) (systemMode : SystemMode) :
  let s := Legacy.calculateSystemState sunIntensity acLoad currentBatteryLevel
             config timeOfDay systemMode in
  (Legacy.gridImport s = 0 \/ Legacy.gridExport s = 0)
  /\ (0 <= acLoad -> 0 < Config.inverterEfficiency config ->
      0 <= Common.maxChargePower config ->
      Legacy.netBatteryFlow s <= Common.maxChargePower config).
Proof.
  cbv zeta. split.
  - legacy_snapshot. destruct systemMode; split_cmp;
      cbn [Legacy.gridImport Legacy.gridExport]; auto.
  - intros Hload Heff Hmax.
    assert (Hii : 0 <= Common.inverterInput acLoad config)
      by (unfold Common.inverterInput; apply Qle_shift_div_l; lra).
    legacy_snapshot. destruct systemMode; split_cmp;
      cbn [Legacy.netBatteryFlow]; close_arith.
Qed.

Lemma legacy_ceiling_and_netting_witness :
  Legacy.netBatteryFlow
    (Legacy.calculateSystemState 0.05 500 1080 DEFAULT_CONFIG 12 HYBRID)
  <= Common.maxChargePower DEFAULT_CONFIG.
Proof.
  apply (legacy_ceiling_and_netting 0.05 500 1080 DEFAULT_CONFIG 12 HYBRID).
  - lra.
  - cbn. lra.
  - vm_compute. discriminate.
Defined.

(** ** Wire segments *)

Lemma resistance_nonneg (lengthFt gauge : Q) :
  0 < gauge -> 0 <= lengthFt -> 0 <= resistance lengthFt gauge.
Proof.
  intros Hg Hl. unfold resistance. apply Qle_shift_div_l; [exact Hg | lra].
Qed.

Lemma calcWire_nonneg (power voltage lengthFt gauge : Q) :
  0 < gauge -> 0 <= lengthFt ->
  let w := calcWire power voltage lengthFt gauge in
  (0 <= Wire.current w /\ 0 <= Wire.powerLoss w /\ 0 <= Wire.voltageDrop w)
  /\ (power <= 0 -> Wire.powerLoss w == 0).
Proof.
  intros Hg Hl. cbv zeta. unfold calcWire.
  destruct (Qleb_spec power 0) as [Hp | Hp];
    destruct (Qleb_spec voltage 0) as [Hv | Hv]; cbn [orb];
    cbn [Wire.current Wire.powerLoss Wire.voltageDrop];
    try (repeat split; intros; lra).
  pose proof (resistance_nonneg lengthFt gauge Hg Hl) as Hr.
  assert (Hc : 0 < power / voltage) by (apply Qlt_shift_div_l; lra).
  repeat split.
  - lra.
  - apply Qmult_le_0_compat; [| exact Hr].
    setoid_replace ((power / voltage) ^ 2)
      with ((power / voltage) * (power / voltage)) by ring.
    apply Qmult_le_0_compat; lra.
  - apply Qmult_le_0_compat; lra.
  - intros. lra.
Qed.

(** For every wire segment the reported loss is the reported drop times the
    reported current; and with a positive gauge and a non-negative length
    the current, the loss and the drop are never negative. *)
Theorem calcWire_physical (power voltage lengthFt gauge : Q) :
  let w := calcWire power voltage lengthFt gauge in
  Wire.powerLoss w == Wire.voltageDrop w * Wire.current w
  /\ (0 < gauge -> 0 <= lengthFt ->
      0 <= Wire.current w /\ 0 <= Wire.powerLoss w /\ 0 <= Wire.voltageDrop w).
Proof.
  cbv zeta. split.
  - unfold calcWire.
    destruct ((power <=? 0) || (voltage <=? 0));
      cbn [Wire.current Wire.powerLoss Wire.voltageDrop]; ring.
  - intros Hg Hl. apply (calcWire_nonneg power voltage lengthFt gauge Hg Hl).
Qed.

Lemma calcWire_physical_witness :
  0 <= Wire.powerLoss (calcWire 500 25 20 10).
Proof.
  destruct (calcWire_physical 500 25 20 10) as [_ H].
  apply H; lra.
Defined.

(** With a positive gauge and a non-negative wire length the power at the
    controller is never negative, never above a non-negative generation,
    and 0 when nothing is generated. *)
Theorem powerAtController_bounds (sunIntensity : Q)
    (config : Config.SystemConfig) (timeOfDay : Q) :
  0 < Config.wireGaugeMm2 config -> 0 <= Config.wireLengthFt config ->
  let generation := Common.solarInput sunIntensity config timeOfDay in
  let p := Common.powerAtController sunIntensity config timeOfDay in
  0 <= p
  /\ (0 <= generation -> p <= generation)
  /\ (generation <= 0 -> p == 0).
Proof.
  intros Hg Hl generation p. subst p generation.
  unfold Common.powerAtController, Common.solarStats.
  set (g := Common.solarInput sunIntensity config timeOfDay).
  destruct (calcWire_nonneg g (Config.panelVoltage config)
              (Config.wireLengthFt config) (Config.wireGaugeMm2 config) Hg Hl)
    as [(_ & Hloss & _) Hzero].
  set (loss := Wire.powerLoss
                 (calcWire g (Config.panelVoltage config)
                    (Config.wireLengthFt config) (Config.wireGaugeMm2 config)))
    in *.
  destruct (Q.max_spec 0 (g - loss)) as [[L E] | [L E]];
    repeat split; intros; lra.
Qed.

Lemma powerAtController_bounds_witness :
  Common.powerAtController 1 DEFAULT_CONFIG 12
  <= Common.solarInput 1 DEFAULT_CONFIG 12.
Proof.
  destruct (powerAtController_bounds 1 DEFAULT_CONFIG 12) as (_ & H & _).
  - cbn. lra.
  - cbn. lra.
  - apply H. vm_compute. discriminate.
Defined.

(** The legacy wire analysis of the snapshot reports "WARNING: Wire
    overheating!" exactly when power is generated at a positive panel
    voltage and the solar-leg current exceeds five times the gauge, and
    "OK" otherwise; in the warning case the reported current is the full
    generation / panelVoltage, not a clamped value. *)
Theorem wire_warning_message
    (sunIntensity acLoad currentBatteryLevel : Q) (config : Config.SystemConfig)
    (timeOfDay : Q) (systemMode : SystemMode) :
  let s := Engine.calculateSystemState sunIntensity acLoad currentBatteryLevel
             config timeOfDay systemMode in
  let overheating :=
    0 < Engine.generation s /\ 0 < Config.panelVoltage config
    /\ Config.wireGaugeMm2 config * 5
       < Engine.generation s / Config.panelVoltage config in
  (overheating ->
   Analysis.message (Engine.wireAnalysis s)
   = "WARNING: Wire overheating!"%string
   /\ Analysis.isSafe (Engine.wireAnalysis s) = false
   /\ Analysis.current (Engine.wireAnalysis s)
      = Engine.generation s / Config.panelVoltage config)
  /\ (~ overheating ->
      Analysis.message (Engine.wireAnalysis s) = "OK"%string
      /\ Analysis.isSafe (Engine.wireAnalysis s) = true).
Proof.
  cbv zeta. snapshot.
  unfold Common.wireAnalysis, Common.solarStats, calcWire.
  cbn [Analysis.message Analysis.isSafe Analysis.current].
  set (g := Common.solarInput sunIntensity config timeOfDay).
  destruct (Qleb_spec g 0) as [Hp | Hp];
    destruct (Qleb_spec (Config.panelVoltage config) 0) as [Hv | Hv];
    cbn [orb Wire.isSafe Wire.current];
    try (split; [intros (H1 & H2 & H3); exfalso; lra
                | intros _; split; reflexivity]).
  destruct (Qleb_spec (g / Config.panelVoltage config)
                      (Config.wireGaugeMm2 config * 5)) as [Hs | Hs].
  - split; [intros (H1 & H2 & H3); exfalso; lra
           | intros _; split; reflexivity].
  - split; [intros _; repeat split
           | intros H; exfalso; apply H; repeat split; assumption].
Qed.

Lemma wire_warning_message_witness :
  let thin := Config.mk 2 250 25 1.5 20 300 24 20 0.8 0.9 in
  Analysis.message
    (Engine.wireAnalysis
       (Engine.calculateSystemState 1 200 3600 thin 12 HYBRID))
  = "WARNING: Wire overheating!"%string.
Proof.
  intros thin.
  destruct (wire_warning_message 1 200 3600 thin 12 HYBRID) as [H _].
  apply H. repeat split; vm_compute; reflexivity.
Defined.

(** * Further properties of the host loop *)

Lemma on_grid_flow_zero
    (sunIntensity acLoad currentBatteryLevel : Q) (config : Config.SystemConfig)
    (timeOfDay : Q) :
  Engine.netBatteryFlow
    (Engine.calculateSystemState sunIntensity acLoad currentBatteryLevel
       config timeOfDay ON_GRID) = 0.
Proof. snapshot. run_engine; reflexivity. Qed.

(** In ON_GRID mode a tick never changes a stored energy that lies in
    [0, maxWh], whatever the elapsed time, the sun and the load. *)
Theorem on_grid_tick_freezes_battery (s : App.State) (now : Q) :
  App.systemMode s = ON_GRID ->
  energyInRange s ->
  App.batteryLevel (App.step s (App.Tick now)) == App.batteryLevel s.
Proof.
  intros Hmode [H0 Hhi]. cbn [App.step App.batteryLevel].
  unfold App.integrate. fold (Common.maxWh (App.config s)).
  rewrite Hmode, on_grid_flow_zero.
  setoid_replace (App.batteryLevel s + 0 * (App.dtSeconds s now * 10 / 3600))
    with (App.batteryLevel s) by ring.
  now apply clamp_id.
Qed.

Lemma on_grid_tick_freezes_battery_witness :
  let s := App.mk 1 12 200 ON_GRID DEFAULT_CONFIG 3600 0 in
  App.batteryLevel (App.step s (App.Tick 60000)) == 3600.
Proof.
  intros s. apply (on_grid_tick_freezes_battery s 60000).
  - reflexivity.
  - split; vm_compute; discriminate.
Defined.

Lemma clamp_monotone (x y hi : Q) :
  x <= y -> Qmax 0 (Qmin x hi) <= Qmax 0 (Qmin y hi).
Proof.
  intros Hxy.
  destruct (Q.max_spec 0 (Qmin x hi)) as [[? ?] | [? ?]];
    destruct (Q.min_spec x hi) as [[? ?] | [? ?]];
    destruct (Q.max_spec 0 (Qmin y hi)) as [[? ?] | [? ?]];
    destruct (Q.min_spec y hi) as [[? ?] | [? ?]]; lra.
Qed.

(** With time moving forward, a tick follows the sign of the net battery
    flow of the snapshot it computes: a stored energy in [0, maxWh] does not
    decrease while the flow is non-negative and does not increase while the
    flow is non-positive. *)
Theorem tick_follows_flow (s : App.State) (now : Q) :
  energyInRange s ->
  0 <= App.dtSeconds s now ->
  let flow :=
    Engine.netBatteryFlow
      (Engine.calculateSystemState (App.sunIntensity s) (App.acLoad s)
         (App.batteryLevel s) (App.config s) (App.timeOfDay s)
         (App.systemMode s)) in
  (0 <= flow ->
   App.batteryLevel s <= App.batteryLevel (App.step s (App.Tick now)))
  /\ (flow <= 0 ->
      App.batteryLevel (App.step s (App.Tick now)) <= App.batteryLevel s).
Proof.
  intros [H0 Hhi] Hdt flow. cbn [App.step App.batteryLevel].
  unfold App.integrate. fold (Common.maxWh (App.config s)). fold flow.
  assert (Hh : 0 <= App.dtSeconds s now * 10 / 3600)
    by (apply Qle_shift_div_l; lra).
  pose proof (clamp_id (App.batteryLevel s) (Common.maxWh (App.config s))
                H0 Hhi) as Hid.
  split; intros Hflow.
  - rewrite <- Hid at 1. apply clamp_monotone.
    assert (0 <= flow * (App.dtSeconds s now * 10 / 3600))
      by (apply Qmult_le_0_compat; assumption).
    lra.
  - rewrite <- Hid at 2. apply clamp_monotone.
    assert (0 <= (- flow) * (App.dtSeconds s now * 10 / 3600))
      by (apply Qmult_le_0_compat; [lra | assumption]).
    lra.
Qed.

Lemma tick_follows_flow_witness :
  App.batteryLevel (App.step (App.initial 0) (App.Tick 100))
  <= App.batteryLevel (App.initial 0).
Proof.
  destruct (tick_follows_flow (App.initial 0) 100) as [_ H].
  - split; vm_compute; discriminate.
  - vm_compute. discriminate.
  - apply H. vm_compute. discriminate.
Defined.

(** ** The configuration editor *)

(** An edit through the editor touches the stored battery energy only when
    it changes the capacity or the voltage: once the effects of the edit
    have run, any edit of another field has left it as it is, and an edit
    of the capacity to a new value has cut it to the new
    capacity * voltage when it was above. *)
Theorem editor_edit_and_battery (s : App.State) (field : SystemEditor.Field)
    (value : Q) :
  let edited := SystemEditor.handleChange (App.config s) field value in
  let s' := App.settle s (App.OnConfigChange edited) in
  (field <> SystemEditor.batteryCapacityAh ->
   field <> SystemEditor.batteryVoltage ->
   App.batteryLevel s' = App.batteryLevel s)
  /\ (field = SystemEditor.batteryCapacityAh ->
      ~ value == Config.batteryCapacityAh (App.config s) ->
      App.batteryLevel s'
      = Qmin (App.batteryLevel s)
             (value * Config.batteryVoltage (App.config s))).
Proof.
  cbv zeta.
  cbn [App.settle App.runEffects App.step App.batteryLevel App.config].
  unfold App.depsChanged. split.
  - intros Hc Hv.
    destruct field; try (now elim Hc); try (now elim Hv);
      cbn [SystemEditor.handleChange Config.batteryCapacityAh
           Config.batteryVoltage];
      rewrite !Qeq_bool_refl; reflexivity.
  - intros -> Hne.
    cbn [SystemEditor.handleChange Config.batteryCapacityAh
         Config.batteryVoltage].
    destruct (Qeq_bool (Config.batteryCapacityAh (App.config s)) value) eqn:E.
    + apply Qeq_bool_eq in E. elim Hne. now symmetry.
    + reflexivity.
Qed.

Lemma editor_edit_and_battery_witness :
  App.batteryLevel
    (App.settle (App.initial 0)
       (App.OnConfigChange
          (SystemEditor.handleChange DEFAULT_CONFIG
             SystemEditor.batteryCapacityAh 100)))
  = Qmin (App.batteryLevel (App.initial 0)) (100 * 24).
Proof.
  destruct (editor_edit_and_battery (App.initial 0)
              SystemEditor.batteryCapacityAh 100) as [_ H].
  apply H; [reflexivity |]. vm_compute. discriminate.
Defined.

(** * The sizing calculator *)

Lemma sum_shift (f : Sizing.Appliance -> Q) (l : list Sizing.Appliance)
    (a : Q) :
  fold_left (fun sum x => sum + f x) l a
  == a + fold_left (fun sum x => sum + f x) l 0.
Proof.
  revert a. induction l as [| x l IH]; intros a; cbn [fold_left].
  - ring.
  - rewrite (IH (a + f x)), (IH (0 + f x)). ring.
Qed.

Lemma sum_filter (f : Sizing.Appliance -> Q) (p : Sizing.Appliance -> bool)
    (l : list Sizing.Appliance) :
  fold_left (fun sum x => sum + f x) l 0
  == fold_left (fun sum x => sum + f x) (filter p l) 0
     + fold_left (fun sum x => sum + f x) (filter (fun x => negb (p x)) l) 0.
Proof.
  induction l as [| x l IH]; cbn [fold_left filter].
  - ring.
  - rewrite (sum_shift f l (0 + f x)), IH.
    destruct (p x); cbn [negb fold_left].
    + rewrite (sum_shift f (filter p l) (0 + f x)). ring.
    + rewrite (sum_shift f (filter (fun x => negb (p x)) l) (0 + f x)). ring.
Qed.

Lemma sum_pos (f : Sizing.Appliance -> Q) (l : list Sizing.Appliance) :
  Forall (fun x => 0 < f x) l ->
  0 <= fold_left (fun sum x => sum + f x) l 0
  /\ (l <> [] -> 0 < fold_left (fun sum x => sum + f x) l 0).
Proof.
  induction 1 as [| x l Hx Hl [IH0 IH]]; cbn [fold_left].
  - split; [lra | intros H; now elim H].
  - rewrite (sum_shift f l (0 + f x)). split; intros; lra.
Qed.

Lemma ceiling_quotient_covers (x d : Q) :
  0 < d -> x <= inject_Z (Qceiling (x / d)) * d.
Proof.
  intros Hd. pose proof (Qle_ceiling (x / d)) as H.
  setoid_replace x with (x / d * d) at 1 by (field; lra).
  apply Qmult_le_compat_r; lra.
Qed.

(** The recommendations cover the demand of any appliance list: the
    inverter size is the least whole number of VA at or above 1.25 times
    the peak load; the 24 V battery covers the daily energy at 50% depth of
    discharge; the panel watts cover it at 5 sun hours and 70% efficiency;
    the panel count covers the panel watts with 250 W panels; and the
    12 V / 150 Ah batteries cover the 24 V bank. *)
Theorem recommendations_sufficient (l : list Sizing.Appliance) :
  Sizing.totalWatts l * 1.25 <= inject_Z (Sizing.recInverterSize l)
  /\ inject_Z (Sizing.recInverterSize l) < Sizing.totalWatts l * 1.25 + 1
  /\ Sizing.totalWhPerDay l <= inject_Z (Sizing.recBatteryAh24V l) * 24 * 0.5
  /\ Sizing.totalWhPerDay l <= inject_Z (Sizing.recPanelWatts l) * 5 * 0.7
  /\ inject_Z (Sizing.recPanelWatts l)
     <= inject_Z (Sizing.recPanelCount l) * 250
  /\ inject_Z (Sizing.recBatteryAh24V l) * 24
     <= inject_Z (Sizing.num12VBatteries l) * (12 * 150).
Proof.
  unfold Sizing.recPanelCount, Sizing.num12VBatteries,
         Sizing.recInverterSize, Sizing.recBatteryAh24V, Sizing.recPanelWatts.
  set (w := Sizing.totalWatts l). set (e := Sizing.totalWhPerDay l).
  pose proof (Qle_ceiling (w * 1.25)) as H1.
  pose proof (Qceiling_lt (w * 1.25)) as H2.
  unfold Z.sub in H2. rewrite inject_Z_plus, inject_Z_opp in H2.
  change (inject_Z 1) with 1 in H2.
  assert (H3 : e / 24 <= inject_Z (Qceiling (e / 24 / 0.5)) * 0.5)
    by (apply ceiling_quotient_covers; lra).
  assert (H4 : e / 5 <= inject_Z (Qceiling (e / 5 / 0.7)) * 0.7)
    by (apply ceiling_quotient_covers; lra).
  assert (E3 : e == e / 24 * 24) by (field; discriminate).
  assert (E4 : e == e / 5 * 5) by (field; discriminate).
  repeat split; try lra; apply ceiling_quotient_covers; lra.
Qed.

(** The Add button appends the draft with the clock reading as id, adds its
    watts and watt-hours to the totals and clears the draft, provided the
    draft has a name and positive watts; otherwise it changes nothing. *)
Theorem addAppliance_spec (now : Q) (st : Sizing.State) :
  (Sizing.truthy (Sizing.newName st) = true /\ 0 < Sizing.newWatts st ->
   let st' := Sizing.addAppliance now st in
   let added :=
     Sizing.mk now (Sizing.newName st) (Sizing.newWatts st)
               (Sizing.newHours st) in
   Sizing.appliances st' = Sizing.appliances st ++ [added]
   /\ Sizing.totalWatts (Sizing.appliances st')
      = Sizing.totalWatts (Sizing.appliances st) + Sizing.newWatts st
   /\ Sizing.totalWhPerDay (Sizing.appliances st')
      = Sizing.totalWhPerDay (Sizing.appliances st)
        + Sizing.newWatts st * Sizing.newHours st
   /\ Sizing.newName st' = EmptyString
   /\ Sizing.newWatts st' = 0 /\ Sizing.newHours st' = 0)
  /\ (Sizing.newName st = EmptyString \/ Sizing.newWatts st <= 0 ->
      Sizing.addAppliance now st = st).
Proof.
  unfold Sizing.addAppliance, Qgtb. split.
  - intros [Hn Hw]. rewrite Hn.
    destruct (Qltb_spec 0 (Sizing.newWatts st)) as [_ | Hle]; [| lra].
    cbn [andb Sizing.appliances Sizing.newName Sizing.newWatts Sizing.newHours].
    unfold Sizing.totalWatts, Sizing.totalWhPerDay.
    rewrite !fold_left_app. repeat split; reflexivity.
  - intros [Hn | Hw].
    + rewrite Hn. reflexivity.
    + destruct (Qltb_spec 0 (Sizing.newWatts st)) as [Hlt | _]; [lra |].
      now rewrite andb_false_r.
Qed.

Lemma addAppliance_spec_witness :
  let st := Sizing.step Sizing.initial (Sizing.SetDraft "Fridge" 150 24) in
  Sizing.totalWatts (Sizing.appliances (Sizing.addAppliance 1700000000000 st))
  = Sizing.totalWatts (Sizing.appliances st) + 150
  /\ Sizing.addAppliance 3 Sizing.initial = Sizing.initial.
Proof.
  intros st. split.
  - apply (addAppliance_spec 1700000000000 st). split.
    + reflexivity.
    + cbn. lra.
  - apply (addAppliance_spec 3 Sizing.initial). left. reflexivity.
Defined.

(** An "x" button removes exactly the appliances whose id equals the
    target and keeps all others; the peak load splits into what is kept
    and what is removed; and a target that no appliance carries changes
    nothing. *)
Theorem removeAppliance_spec (target : Q) (st : Sizing.State) :
  let st' := Sizing.removeAppliance target st in
  (forall a : Sizing.Appliance,
     In a (Sizing.appliances st')
     <-> In a (Sizing.appliances st) /\ ~ Sizing.id a == target)
  /\ Sizing.totalWatts (Sizing.appliances st)
     == Sizing.totalWatts (Sizing.appliances st')
        + Sizing.totalWatts
            (filter (fun a => Qeq_bool (Sizing.id a) target)
                    (Sizing.appliances st))
  /\ (Forall (fun a => ~ Sizing.id a == target) (Sizing.appliances st) ->
      st' = st).
Proof.
  cbv zeta. unfold Sizing.removeAppliance. cbn [Sizing.appliances].
  split; [| split].
  - intros a. rewrite filter_In. split; intros [Hin Hid]; split; trivial.
    + intros Heq. apply Qeq_eq_bool in Heq. rewrite Heq in Hid. discriminate.
    + destruct (Qeq_bool (Sizing.id a) target) eqn:E; [| reflexivity].
      apply Qeq_bool_eq in E. now elim Hid.
  - unfold Sizing.totalWatts.
    rewrite (sum_filter Sizing.watts
               (fun a => negb (Qeq_bool (Sizing.id a) target))
               (Sizing.appliances st)).
    apply Qplus_comp; [reflexivity |].
    rewrite (filter_ext
               (fun x => negb (negb (Qeq_bool (Sizing.id x) target)))
               (fun a => Qeq_bool (Sizing.id a) target)).
    + reflexivity.
    + intros a. apply negb_involutive.
  - intros Hall. destruct st as [l n w h].
    cbn [Sizing.appliances Sizing.newName Sizing.newWatts Sizing.newHours] in *.
    f_equal. induction Hall as [| a l Ha Hl IH]; cbn [filter].
    + reflexivity.
    + destruct (Qeq_bool (Sizing.id a) target) eqn:E.
      * apply Qeq_bool_eq in E. now elim Ha.
      * cbn [negb]. now rewrite IH.
Qed.

Lemma removeAppliance_spec_witness :
  Sizing.removeAppliance 7 Sizing.initial = Sizing.initial.
Proof.
  apply (removeAppliance_spec 7 Sizing.initial).
  repeat constructor; intros H; vm_compute in H; discriminate.
Defined.

(** Adding an accepted draft under a fresh id and then removing that id
    gives back the appliance list as it was. *)
Theorem add_then_remove (now : Q) (st : Sizing.State) :
  Sizing.truthy (Sizing.newName st) = true ->
  0 < Sizing.newWatts st ->
  Forall (fun a => ~ Sizing.id a == now) (Sizing.appliances st) ->
  Sizing.appliances (Sizing.removeAppliance now (Sizing.addAppliance now st))
  = Sizing.appliances st.
Proof.
  intros Hn Hw Hfresh. unfold Sizing.addAppliance, Qgtb. rewrite Hn.
  destruct (Qltb_spec 0 (Sizing.newWatts st)) as [_ | Hle]; [| lra].
  cbn [andb]. unfold Sizing.removeAppliance. cbn [Sizing.appliances].
  rewrite filter_app. cbn [filter Sizing.id].
  rewrite Qeq_bool_refl. cbn [negb]. rewrite app_nil_r.
  induction Hfresh as [| a l Ha Hl IH]; cbn [filter].
  - reflexivity.
  - destruct (Qeq_bool (Sizing.id a) now) eqn:E.
    + apply Qeq_bool_eq in E. now elim Ha.
    + cbn [negb]. now rewrite IH.
Qed.

Lemma add_then_remove_witness :
  let st := Sizing.step Sizing.initial (Sizing.SetDraft "Fridge" 150 24) in
  Sizing.appliances (Sizing.removeAppliance 9 (Sizing.addAppliance 9 st))
  = Sizing.appliances st.
Proof.
  intros st. apply (add_then_remove 9 st).
  - reflexivity.
  - cbn. lra.
  - repeat constructor; intros H; vm_compute in H; discriminate.
Defined.

Lemma sizing_step_listed (st : Sizing.State) (e : Sizing.Event) :
  Forall listed (Sizing.appliances st) ->
  Forall listed (Sizing.appliances (Sizing.step st e)).
Proof.
  intros H. destruct e as [n w h | now | target]; cbn [Sizing.step].
  - exact H.
  - unfold Sizing.addAppliance, Qgtb.
    destruct (Sizing.truthy (Sizing.newName st)) eqn:Hn; [| exact H].
    destruct (Qltb_spec 0 (Sizing.newWatts st)) as [Hw | _]; [| exact H].
    cbn [andb Sizing.appliances]. apply Forall_app. split; [exact H |].
    constructor; [split; assumption | constructor].
  - cbn [Sizing.removeAppliance Sizing.appliances].
    apply Forall_forall. intros a Hin. apply filter_In in Hin.
    rewrite Forall_forall in H. now apply H.
Qed.

Lemma sizing_run_listed (events : list Sizing.Event) (st : Sizing.State) :
  Forall listed (Sizing.appliances st) ->
  Forall listed (Sizing.appliances (Sizing.run st events)).
Proof.
  revert st. induction events as [| e events IH]; intros st H.
  - exact H.
  - cbn [Sizing.run fold_left]. apply IH. now apply sizing_step_listed.
Qed.

(** Whatever is typed, added and removed, every listed appliance has a name
    and positive watts; so the peak load is never negative, and whenever the
    list is not empty (the recommendations are then shown) the peak load is
    positive and the recommended inverter size is at least 1 VA. *)
Theorem sizing_invariant (events : list Sizing.Event) :
  let l := Sizing.appliances (Sizing.run Sizing.initial events) in
  Forall (fun a => Sizing.truthy (Sizing.name a) = true /\ 0 < Sizing.watts a) l
  /\ 0 <= Sizing.totalWatts l
  /\ (l <> [] -> 0 < Sizing.totalWatts l /\ (1 <= Sizing.recInverterSize l)%Z).
Proof.
  intros l.
  assert (Hl : Forall listed l).
  { apply sizing_run_listed. repeat constructor; cbn; lra. }
  assert (Hw : Forall (fun a => 0 < Sizing.watts a) l).
  { apply Forall_forall. intros a Hin. rewrite Forall_forall in Hl.
    apply (Hl a Hin). }
  destruct (sum_pos Sizing.watts l Hw) as [H0 Hpos].
  split; [exact Hl | split; [exact H0 |]].
  intros Hne. specialize (Hpos Hne). split; [exact Hpos |].
  unfold Sizing.recInverterSize.
  pose proof (Qle_ceiling (Sizing.totalWatts l * 1.25)) as Hc.
  fold (Sizing.totalWatts l) in Hpos.
  assert (Hz : inject_Z 0 < inject_Z (Qceiling (Sizing.totalWatts l * 1.25))).
  { change (inject_Z 0) with 0. lra. }
  rewrite <- Zlt_Qlt in Hz. lia.
Qed.

Lemma sizing_invariant_witness :
  let events := [Sizing.SetDraft "Fridge" 150 24; Sizing.Add 5;
                 Sizing.Remove 1] in
  let l := Sizing.appliances (Sizing.run Sizing.initial events) in
  0 < Sizing.totalWatts l /\ (1 <= Sizing.recInverterSize l)%Z.
Proof.
  intros events l.
  destruct (sizing_invariant events) as (_ & _ & H).
  apply H. discriminate.
Defined.

(** * What the diagram shows *)

Lemma Qeqb_spec (x y : Q) : BoolSpec (x == y) (~ x == y) (Qeq_bool x y).
Proof.
  destruct (Qeq_bool x y) eqn:E; constructor.
  - now apply Qeq_bool_eq.
  - now apply Qeq_bool_neq.
Qed.

(** Under the configuration invariant and a non-negative load the grid wire
    of the diagram shows exactly one of its three labels, with the matching
    arrow: import with the up arrow, export with the down arrow, or
    standby with no arrow. *)
Theorem grid_wire_one_label
    (sunIntensity acLoad currentBatteryLevel : Q) (config : Config.SystemConfig)
    (timeOfDay : Q) (systemMode : SystemMode) :
  validConfig config -> 0 <= acLoad ->
  let s := Engine.calculateSystemState sunIntensity acLoad currentBatteryLevel
             config timeOfDay systemMode in
  (Diagram.showsIn s = true /\ Diagram.showsOut s = false
   /\ Diagram.showsStandby s = false /\ Diagram.gridArrow s = Diagram.Up)
  \/ (Diagram.showsIn s = false /\ Diagram.showsOut s = true
      /\ Diagram.showsStandby s = false /\ Diagram.gridArrow s = Diagram.Down)
  \/ (Diagram.showsIn s = false /\ Diagram.showsOut s = false
      /\ Diagram.showsStandby s = true
      /\ Diagram.gridArrow s = Diagram.NoArrow).
Proof.
  intros Hvalid Hload s.
  assert (Heff : 0 < Config.inverterEfficiency config)
    by (destruct Hvalid as [_ _ _ _ _ [H _] _]; exact H).
  pose proof (grid_never_both sunIntensity acLoad currentBatteryLevel config
                timeOfDay systemMode Heff
                (Qlt_le_weak _ _ (maxChargePower_pos config Hvalid))) as Hone.
  destruct (engine_outputs_nonneg sunIntensity acLoad currentBatteryLevel
              config timeOfDay systemMode Hvalid Hload) as (Hi & He & _).
  cbv zeta in Hone, Hi, He.
  unfold Diagram.showsIn, Diagram.showsOut, Diagram.showsStandby,
         Diagram.gridArrow, Qgtb.
  subst s. snapshot.
  set (import := Vars.gridImport _) in *.
  set (export := Vars.gridExport _) in *.
  clearbody import export.
  destruct (Qltb_spec 0 import) as [Hip | Hip];
    destruct (Qltb_spec 0 export) as [Hep | Hep];
    destruct (Qeqb_spec import 0) as [Ei | Ei];
    destruct (Qeqb_spec export 0) as [Ee | Ee];
    cbn [andb];
    try (exfalso; destruct Hone; lra);
    try (exfalso; apply Ei; lra); try (exfalso; apply Ee; lra);
    auto 10.
Qed.

Lemma grid_wire_one_label_witness :
  let s := Engine.calculateSystemState 1 500 1800 DEFAULT_CONFIG 12 HYBRID in
  Diagram.showsIn s = true /\ Diagram.showsOut s = false.
Proof.
  intros s.
  destruct (grid_wire_one_label 1 500 1800 DEFAULT_CONFIG 12 HYBRID)
    as [(H1 & H2 & _) | [(H1 & _) | (H1 & _)]].
  - constructor; cbn; lra.
  - lra.
  - split; assumption.
  - vm_compute in H1. discriminate.
  - vm_compute in H1. discriminate.
Defined.

(** Under the configuration invariant and a non-negative load the arrow of
    the DC bus points up only in HYBRID mode while the grid emergency-charges
    the battery (state of charge below 20%, effective intensity below 0.1);
    the power written on the bus is then the charging power
    maxChargePower / inverterEfficiency. *)
Theorem dc_bus_arrow_up
    (sunIntensity acLoad currentBatteryLevel : Q) (config : Config.SystemConfig)
    (timeOfDay : Q) (systemMode : SystemMode) :
  validConfig config -> 0 <= acLoad ->
  let s := Engine.calculateSystemState sunIntensity acLoad currentBatteryLevel
             config timeOfDay systemMode in
  Diagram.dcBusArrow systemMode s = Diagram.Up ->
  systemMode = HYBRID
  /\ Common.batteryPercent currentBatteryLevel config < 20
  /\ Common.effectiveIntensity sunIntensity timeOfDay < 0.1
  /\ Diagram.dcBusPower systemMode s
     == Common.maxChargePower config / Config.inverterEfficiency config.
Proof.
  intros Hvalid Hload s. subst s.
  pose proof (maxChargePower_pos config Hvalid) as Hmax.
  pose proof (available_nonneg sunIntensity config timeOfDay Hvalid) as Havail.
  assert (Heff : 0 < Config.inverterEfficiency config)
    by (destruct Hvalid as [_ _ _ _ _ [H _] _]; exact H).
  pose proof (inverterInput_times_efficiency acLoad config Heff) as Hinv.
  pose proof (grid_charge_times_efficiency config Heff) as Hchg.
  assert (Hchg0 : 0 < Common.maxChargePower config
                      / Config.inverterEfficiency config)
    by (apply Qlt_shift_div_l; lra).
  unfold Diagram.dcBusArrow, Diagram.dcBusPower. snapshot.
  unfold Common.powerAvailableForCharging in *.
  destruct systemMode; [| discriminate |];
    run_engine; intros Hup; try discriminate;
    try (exfalso; lra); try (exfalso; nra);
    repeat split; close_arith.
Qed.

Lemma dc_bus_arrow_up_witness :
  Diagram.dcBusPower HYBRID
    (Engine.calculateSystemState 0 500 1080 DEFAULT_CONFIG 12 HYBRID)
  == Common.maxChargePower DEFAULT_CONFIG
     / Config.inverterEfficiency DEFAULT_CONFIG.
Proof.
  apply (dc_bus_arrow_up 0 500 1080 DEFAULT_CONFIG 12 HYBRID).
  - constructor; cbn; lra.
  - lra.
  - vm_compute. reflexivity.
Defined.

(** * The sun control *)

Lemma timeOfDay_linear (theta : Q) :
  SunControl.timeOfDay theta == 6 + theta * (1 # 15).
Proof. unfold SunControl.timeOfDay. field. Qed.

(** The clamped angle lies in [0, 180] and is the angle itself when that is
    already in range; the hour handed to the engine then lies in [6, 18],
    and it falls in the daylight window [9, 16] exactly for angles in
    [45, 150]. *)
Theorem sun_angle_hours (theta : Q) :
  let t := SunControl.clampTheta theta in
  (0 <= t /\ t <= 180)
  /\ (0 <= theta /\ theta <= 180 -> t = theta)
  /\ (6 <= SunControl.timeOfDay t /\ SunControl.timeOfDay t <= 18)
  /\ (9 <= SunControl.timeOfDay t /\ SunControl.timeOfDay t <= 16
      <-> 45 <= t /\ t <= 150).
Proof.
  cbv zeta. unfold SunControl.clampTheta, Qgtb.
  rewrite !timeOfDay_linear.
  destruct (Qltb_spec theta 0) as [H0 | H0];
    [destruct (Qltb_spec 180 0) as [H | H]; [exfalso; lra |]
    | destruct (Qltb_spec 180 theta) as [H | H]];
    repeat split; intros;
    repeat match goal with Hc : _ /\ _ |- _ => destruct Hc end;
    repeat split; try reflexivity; try lra; exfalso; lra.
Qed.

Lemma sun_angle_hours_witness : SunControl.clampTheta 90 = 90.
Proof.
  apply (sun_angle_hours 90). split; lra.
Defined.

(** With the sun dragged or slid to an angle below 45 or above 150 degrees
    (before 9 am or after 4 pm) nothing is generated, whatever intensity
    the control passes along, in every mode. *)
Theorem sun_outside_window_no_generation
    (theta intensity acLoad currentBatteryLevel : Q)
    (config : Config.SystemConfig) (systemMode : SystemMode) :
  let t := SunControl.clampTheta theta in
  t < 45 \/ 150 < t ->
  Engine.generation
    (Engine.calculateSystemState intensity acLoad currentBatteryLevel config
       (SunControl.timeOfDay t) systemMode) == 0.
Proof.
  intros t Hout. snapshot.
  unfold Common.solarInput, Common.effectiveIntensity, Qgtb.
  pose proof (timeOfDay_linear t) as Ht.
  destruct (Qltb_spec (SunControl.timeOfDay t) 9) as [H9 | H9];
    destruct (Qltb_spec 16 (SunControl.timeOfDay t)) as [H16 | H16];
    cbn [orb]; try ring.
  exfalso. destruct Hout; lra.
Qed.

Lemma sun_outside_window_no_generation_witness :
  Engine.generation
    (Engine.calculateSystemState 1 200 3600 DEFAULT_CONFIG
       (SunControl.timeOfDay (SunControl.clampTheta 170)) HYBRID) == 0.
Proof.
  apply (sun_outside_window_no_generation 170 1 200 3600 DEFAULT_CONFIG HYBRID).
  right. vm_compute. reflexivity.
Defined.

(** For every slider angle in [0, 180] the clock under the arc shows an hour
    between 1 and 12 and minutes between 0 and 59, with the PM suffix
    exactly from 90 degrees (noon) on. *)
Theorem clock_ranges (angle : Q) :
  0 <= angle -> angle <= 180 ->
  let '(hour12, minutes, pm) := SunControl.clock angle in
  (1 <= hour12 <= 12)%Z
  /\ (0 <= minutes <= 59)%Z
  /\ (pm = true <-> 90 <= angle).
Proof.
  intros H0 H180. unfold SunControl.clock.
  set (hour := 6 + angle / 180 * 12).
  assert (Hhour : hour == 6 + angle * (1 # 15)) by (subst hour; field).
  clearbody hour.
  assert (Hlo : 6 <= hour) by lra.
  assert (Hhi : hour <= 18) by lra.
  pose proof (Qfloor_le hour) as Hfl. pose proof (Qlt_floor hour) as Hfu.
  rewrite inject_Z_plus in Hfu. change (inject_Z 1) with 1 in Hfu.
  assert (Hh6 : (6 <= Qfloor hour)%Z)
    by (change 6%Z with (Qfloor 6); now apply Qfloor_resp_le).
  assert (Hh18 : (Qfloor hour <= 18)%Z)
    by (change 18%Z with (Qfloor 18); now apply Qfloor_resp_le).
  set (h := Qfloor hour) in *.
  set (frac := (hour - inject_Z h) * 60).
  assert (Hf0 : 0 <= frac) by (subst frac; lra).
  assert (Hf60 : frac < 60) by (subst frac; lra).
  assert (Hm0 : (0 <= Qfloor frac)%Z)
    by (change 0%Z with (Qfloor 0); now apply Qfloor_resp_le).
  assert (Hm59 : (Qfloor frac < 60)%Z).
  { rewrite Zlt_Qlt. pose proof (Qfloor_le frac).
    change (inject_Z 60) with 60. lra. }
  split; [| split; [lia |]].
  - destruct (Z.eqb_spec (Z.rem h 12) 0) as [E | E]; [lia |].
    pose proof (Z.rem_bound_pos h 12). lia.
  - rewrite Z.leb_le. split.
    + intros H12. rewrite Zle_Qle in H12. change (inject_Z 12) with 12 in H12.
      lra.
    + intros H90. change 12%Z with (Qfloor 12). apply Qfloor_resp_le. lra.
Qed.

Lemma clock_ranges_witness :
  (1 <= fst (fst (SunControl.clock 135)) <= 12)%Z.
Proof.
  pose proof (clock_ranges 135) as H.
  destruct (SunControl.clock 135) as [[hour12 minutes] pm].
  apply H; lra.
Defined.
